(** * MLS report pipeline: extraction, statistics, validation, forecast

    A shallow embedding of the extraction-validation-statistics core of the
    real-estate analytics repository, the properties its specification
    states about it, and further properties of the code.

    Source files embedded here:
    - [utils/mls-validator.ts]      (line extractor and statistics block,
                                     error-collecting validator)
    - [utils/market-data-validator] (assertion-style validator, ValidationError)
    - [components/PDFUpload.tsx]    (moving average, trend strength,
                                     seasonality pattern, price predictions)
    - [utils/pdf-processor.ts]      (processPDF, validatePDFContent,
                                     retryProcessing)

    Conventions of the embedding.
    - A JavaScript [number] is a finite rational, [+Infinity], [-Infinity] or
      [NaN].  Arithmetic on finite values is exact (binary64 rounding is not
      modelled) and [-0] is identified with [+0].
    - A JavaScript string is a [string] of 8-bit characters; the regular
      expressions are embedded on the ASCII range ([\s] is the ASCII white
      space, [\d] the ten digits, [/i] folds the 26 letters).
    - An object with optional keys is a record of [option]s, [None] standing
      for [undefined].
    - A function that may throw returns a [result]. *)

From Stdlib Require Import QArith ZArith List String Ascii Bool Arith Lia Lqa.
From Stdlib Require Import Qround Qabs Qminmax Permutation DecimalString.
From Stdlib Require DecimalNat DecimalFacts.
Import ListNotations.

Set Implicit Arguments.

(* ================================================================== *)
(** * JavaScript numbers *)
(* ================================================================== *)

Module JS.

Inductive number : Type :=
| Num (q : Q)
| PosInf
| NegInf
| NaN.

Definition Qlt_bool (a b : Q) : bool := negb (Qle_bool b a).
Definition Qis_zero (a : Q) : bool := Qeq_bool a 0.

Definition zero : number := Num 0.
Definition one : number := Num 1.
Definition of_Z (z : Z) : number := Num (inject_Z z).
Definition of_nat (n : nat) : number := of_Z (Z.of_nat n).

(** Equality of numbers as values ([Num] up to [Qeq]); this is not the JS
    operator [===], for which [NaN] differs from itself. *)
Definition num_eq (a b : number) : Prop :=
  match a, b with
  | Num x, Num y => x == y
  | PosInf, PosInf | NegInf, NegInf | NaN, NaN => True
  | _, _ => False
  end.


Definition is_finite (a : number) : bool :=
  match a with Num _ => true | _ => false end.

Definition neg (a : number) : number :=
  match a with
  | Num x => Num (- x)
  | PosInf => NegInf
  | NegInf => PosInf
  | NaN => NaN
  end.

Definition add (a b : number) : number :=
  match a, b with
  | NaN, _ | _, NaN => NaN
  | Num x, Num y => Num (x + y)
  | PosInf, NegInf | NegInf, PosInf => NaN
  | PosInf, _ | _, PosInf => PosInf
  | NegInf, _ | _, NegInf => NegInf
  end.

Definition sub (a b : number) : number := add a (neg b).

(** Sign of a number that is not [NaN]: [Lt], [Eq] (zero) or [Gt]. *)
Definition sign (a : number) : comparison :=
  match a with
  | Num x => x ?= 0
  | PosInf => Gt
  | NegInf => Lt
  | NaN => Eq
  end.

Definition signed_inf (s : comparison) : number :=
  match s with Gt => PosInf | Lt => NegInf | Eq => NaN end.

Definition sign_mul (s t : comparison) : comparison :=
  match s, t with
  | Eq, _ | _, Eq => Eq
  | Gt, Gt | Lt, Lt => Gt
  | _, _ => Lt
  end.

Definition mul (a b : number) : number :=
  match a, b with
  | NaN, _ | _, NaN => NaN
  | Num x, Num y => Num (x * y)
  | _, _ => signed_inf (sign_mul (sign a) (sign b))
  end.

(** Division: a finite value over zero is an infinity of the dividend's sign,
    and [0 / 0] is [NaN]. *)
Definition div (a b : number) : number :=
  match a, b with
  | NaN, _ | _, NaN => NaN
  | Num x, Num y =>
      if Qis_zero y then signed_inf (x ?= 0) else Num (x / y)
  | Num _, _ => Num 0
  | _, Num y => if Qlt_bool y 0 then neg a else a
  | _, _ => NaN
  end.

Definition lt (a b : number) : bool :=
  match a, b with
  | NaN, _ | _, NaN => false
  | Num x, Num y => Qlt_bool x y
  | NegInf, NegInf => false
  | NegInf, _ => true
  | _, PosInf => match a with PosInf => false | _ => true end
  | _, _ => false
  end.

Definition gt (a b : number) : bool := lt b a.

Definition le (a b : number) : bool :=
  match a, b with
  | NaN, _ | _, NaN => false
  | _, _ => negb (lt b a)
  end.

Definition ge (a b : number) : bool := le b a.

Definition Math_abs (a : number) : number :=
  match a with
  | Num x => Num (Qabs x)
  | PosInf | NegInf => PosInf
  | NaN => NaN
  end.

(** [Math.round]: the nearest integer, halves going up. *)
Definition Math_round (a : number) : number :=
  match a with
  | Num x => of_Z (Qfloor (x + (1 # 2)))
  | _ => a
  end.

Definition Math_floor (a : number) : number :=
  match a with
  | Num x => of_Z (Qfloor x)
  | _ => a
  end.


(** The root of a non-negative rational, rounded down at 53 fractional bits
    of the scaled numerator; exact on squares of rationals and positive on
    positive arguments. *)
Definition Qsqrt (q : Q) : Q :=
  let n := Qnum q in
  let d := Qden q in
  Z.sqrt (n * Zpos d * 4 ^ 53) # (d * 2 ^ 53).

Definition Math_sqrt (a : number) : number :=
  match a with
  | Num x => if Qlt_bool x 0 then NaN else Num (Qsqrt x)
  | PosInf => PosInf
  | NegInf | NaN => NaN
  end.

(** [Math.pow] at a natural exponent. *)
Fixpoint Math_pow (a : number) (n : nat) : number :=
  match n with
  | O => one
  | S O => a
  | S m => mul a (Math_pow a m)
  end.

(** Truthiness of a number: everything but [0] and [NaN]. *)
Definition truthy (a : number) : bool :=
  match a with
  | Num x => negb (Qis_zero x)
  | PosInf | NegInf => true
  | NaN => false
  end.

(** [a || b] on numbers. *)
Definition or_else (a b : number) : number := if truthy a then a else b.

(** A possibly-undefined number in a numeric context: [undefined] is [NaN]. *)
Definition to_number (v : option number) : number :=
  match v with Some n => n | None => NaN end.

(** [l[i]] for an array of numbers: defined at the integers
    [0 .. length - 1]. *)
Definition index (l : list number) (i : number) : option number :=
  match i with
  | Num x =>
      if Qeq_bool x (inject_Z (Qfloor x)) && Qle_bool 0 x
      then nth_error l (Z.to_nat (Qfloor x))
      else None
  | _ => None
  end.

(** Truthiness of a possibly-undefined number and of a possibly-undefined
    string. *)
Definition truthy_opt (v : option number) : bool :=
  match v with Some n => truthy n | None => false end.

Definition truthy_str (v : option string) : bool :=
  match v with
  | Some EmptyString | None => false
  | Some _ => true
  end.

End JS.

Declare Scope js_scope.
Delimit Scope js_scope with js.
Infix "+" := JS.add : js_scope.
Infix "-" := JS.sub : js_scope.
Infix "*" := JS.mul : js_scope.
Infix "/" := JS.div : js_scope.
Infix "<?" := JS.lt : js_scope.
Infix ">?" := JS.gt : js_scope.
Infix "<=?" := JS.le : js_scope.
Infix ">=?" := JS.ge : js_scope.
Infix "=n=" := JS.num_eq (at level 70, no associativity).

Import JS.
Open Scope string_scope.
Open Scope list_scope.

(* ================================================================== *)
(** * Data model ([types/property.ts]) *)
(* ================================================================== *)

(** A listing as a runtime object: every key may be absent, since the
    extractor casts its partial accumulator to [Property]. *)
Module Property.
Record t : Type := mk {
  mlsNumber : option string;
  address : option string;
  city : option string;
  listPrice : option number;
  bedrooms : option number;
  bathrooms : option string;
  sqft : option number;
  yearBuilt : option number;
  garage : option string;
  pool : option bool;
  acres : option number;
  pricePerSqft : option number;
  soldPrice : option number;
  soldDate : option string;
  daysOnMarket : option number;
  saleToListRatio : option number
}.

(** The empty object literal. *)
Definition empty : t :=
  mk None None None None None None None None
     None None None None None None None None.

Definition count {A} (o : option A) : nat :=
  match o with Some _ => 1 | None => 0 end.

(** [Object.keys(p).length]. *)
Definition keys_length (p : t) : nat :=
  count (mlsNumber p) + count (address p) + count (city p)
  + count (listPrice p) + count (bedrooms p) + count (bathrooms p)
  + count (sqft p) + count (yearBuilt p) + count (garage p)
  + count (pool p) + count (acres p) + count (pricePerSqft p)
  + count (soldPrice p) + count (soldDate p) + count (daysOnMarket p)
  + count (saleToListRatio p).
End Property.

Module PricePoint.
Record t : Type := mk { date : string; price : number; volume : number }.
End PricePoint.

Module SeasonalityData.
Record t : Type := mk {
  month : number; averagePrice : number; salesVolume : number }.
End SeasonalityData.

Module ForecastData.
Record t : Type := mk { priceChange : number; confidence : number }.
End ForecastData.

Module ForecastTriple.
Record t : Type := mk {
  nextMonth : ForecastData.t;
  nextQuarter : ForecastData.t;
  nextYear : ForecastData.t }.
End ForecastTriple.

Module MarketTrends.
Record t : Type := mk {
  priceHistory : list PricePoint.t;
  seasonality : list SeasonalityData.t;
  forecast : ForecastTriple.t }.
End MarketTrends.

Module Statistics.
Record t : Type := mk {
  averageDaysOnMarket : number;
  medianDaysOnMarket : number;
  totalActiveListings : number;
  totalClosedSales : number;
  averagePrice : number;
  medianPrice : number;
  pricePerSquareFoot : number;
  inventoryLevel : number;
  daysOfInventory : number;
  absorptionRate : number;
  newListings : number;
  closedListings : number;
  pendingListings : number;
  canceledListings : number;
  averageListPrice : number;
  medianListPrice : number;
  averageSoldPrice : number;
  medianSoldPrice : number;
  listToSoldRatio : number;
  monthsOfSupply : number }.
End Statistics.

(** [type] and [trend] are kept as strings: the validator tests them against
    the allowed literals at run time. *)
Module SchoolInfo.
Record t : Type := mk {
  name : string;
  rating : number;
  type : string;
  distance : number;
  enrollment : number;
  studentTeacherRatio : number }.
End SchoolInfo.

Module DemographicMetric.
Record t : Type := mk {
  value : number; trend : string; percentChange : number }.
End DemographicMetric.

Module EducationLevels.
Record t : Type := mk {
  highSchool : DemographicMetric.t;
  bachelors : DemographicMetric.t;
  graduate : DemographicMetric.t }.
End EducationLevels.

Module DemographicAnalysis.
Record t : Type := mk {
  population : DemographicMetric.t;
  medianAge : DemographicMetric.t;
  medianIncome : DemographicMetric.t;
  employmentRate : DemographicMetric.t;
  educationLevels : EducationLevels.t }.
End DemographicAnalysis.

Module Address.
Record t : Type := mk {
  street : string; city : string; state : string; zipCode : string }.
End Address.

Module Schools.
Record t : Type := mk {
  elementary : list string; middle : list string; high : list string }.
End Schools.

Module SchoolDistrict.
Record t : Type := mk { name : string; rating : number; schools : Schools.t }.
End SchoolDistrict.

Module EducationLevel.
Record t : Type := mk {
  highSchool : number; bachelors : number; graduate : number }.
End EducationLevel.

Module Demographics.
Record t : Type := mk {
  population : number;
  medianAge : number;
  medianIncome : number;
  employmentRate : number;
  educationLevel : EducationLevel.t }.
End Demographics.

Module MLSReport.
Record t : Type := mk {
  mlsNumber : string;
  listPrice : number;
  propertyType : string;
  bedrooms : number;
  bathrooms : number;
  squareFeet : number;
  yearBuilt : number;
  lotSize : number;
  description : string;
  address : Address.t;
  features : list string;
  photos : list string;
  marketTrends : MarketTrends.t;
  statistics : Statistics.t;
  schoolDistrict : SchoolDistrict.t;
  demographics : Demographics.t;
  activeListings : list Property.t;
  closedListings : list Property.t;
  schoolDistricts : list SchoolInfo.t;
  demographicAnalysis : DemographicAnalysis.t }.
End MLSReport.

(* ================================================================== *)
(** * Strings and the regular-expression fragments the extractor uses *)
(* ================================================================== *)

Module Text.

Definition code (c : ascii) : nat := nat_of_ascii c.

Definition between (lo hi n : nat) : bool := Nat.leb lo n && Nat.leb n hi.

(** [\d] *)
Definition isDigit (c : ascii) : bool := between 48 57 (code c).

(** [\s] and the characters [trim] removes: tab, line feed, vertical tab,
    form feed, carriage return, space. *)
Definition isSpace (c : ascii) : bool :=
  between 9 13 (code c) || Nat.eqb (code c) 32.

Definition newline : ascii := ascii_of_nat 10.
Definition isNewline (c : ascii) : bool := Nat.eqb (code c) 10.
Definition isComma (c : ascii) : bool := Nat.eqb (code c) 44.
Definition isDash (c : ascii) : bool := Nat.eqb (code c) 45.
Definition isDot (c : ascii) : bool := Nat.eqb (code c) 46.
Definition isDollar (c : ascii) : bool := Nat.eqb (code c) 36.
Definition isHash (c : ascii) : bool := Nat.eqb (code c) 35.
Definition isColon (c : ascii) : bool := Nat.eqb (code c) 58.
Definition isPlus (c : ascii) : bool := Nat.eqb (code c) 43.

(** Case folding of the flag [/i] and of [toLowerCase]. *)
Definition lower (c : ascii) : ascii :=
  if between 65 90 (code c) then ascii_of_nat (code c + 32) else c.

Fixpoint toLowerCase (s : string) : string :=
  match s with
  | EmptyString => EmptyString
  | String c r => String (lower c) (toLowerCase r)
  end.

(** The longest prefix whose characters satisfy [p], and what follows it:
    a greedy [p*]. *)
Fixpoint span (p : ascii -> bool) (s : string) : string * string :=
  match s with
  | EmptyString => (EmptyString, EmptyString)
  | String c r =>
      if p c then let (a, b) := span p r in (String c a, b)
      else (EmptyString, s)
  end.

Definition skip (p : ascii -> bool) (s : string) : string := snd (span p s).

(** An optional single character [p?]. *)
Definition optional (p : ascii -> bool) (s : string) : string :=
  match s with
  | String c r => if p c then r else s
  | EmptyString => s
  end.

(** A literal under [/i] at the head of [s]: the rest of [s] after it. *)
Fixpoint literal (tok s : string) : option string :=
  match tok with
  | EmptyString => Some s
  | String t tok' =>
      match s with
      | EmptyString => None
      | String c s' =>
          if Ascii.eqb (lower c) (lower t) then literal tok' s' else None
      end
  end.

(** An alternation of literals, tried in order. *)
Fixpoint alternation (toks : list string) (s : string) : option string :=
  match toks with
  | [] => None
  | t :: ts =>
      match literal t s with
      | Some r => Some r
      | None => alternation ts s
      end
  end.

(** The leftmost position of [s] at which [f] matches. *)
Fixpoint search {A : Type} (f : string -> option A) (s : string) : option A :=
  match f s with
  | Some a => Some a
  | None =>
      match s with
      | EmptyString => None
      | String _ r => search f r
      end
  end.

Definition is_some {A : Type} (o : option A) : bool :=
  match o with Some _ => true | None => false end.

(** [s.includes(tok)] *)
Fixpoint includes (tok s : string) : bool :=
  String.prefix tok s
  || match s with
     | EmptyString => false
     | String _ r => includes tok r
     end.

Fixpoint remove (p : ascii -> bool) (s : string) : string :=
  match s with
  | EmptyString => EmptyString
  | String c r => if p c then remove p r else String c (remove p r)
  end.

Definition is_empty (s : string) : bool :=
  match s with EmptyString => true | _ => false end.

Definition trimStart (s : string) : string := skip isSpace s.

Fixpoint trimEnd (s : string) : string :=
  match s with
  | EmptyString => EmptyString
  | String c r =>
      match trimEnd r with
      | EmptyString => if isSpace c then EmptyString else String c EmptyString
      | r' => String c r'
      end
  end.

Definition trim (s : string) : string := trimEnd (trimStart s).

(** [s.split('\n')] *)
Fixpoint split_lines (s : string) : list string :=
  match s with
  | EmptyString => [EmptyString]
  | String c r =>
      if isNewline c then EmptyString :: split_lines r
      else match split_lines r with
           | [] => [String c EmptyString]
           | l :: ls => String c l :: ls
           end
  end.

Fixpoint digits_value (acc : Z) (s : string) : Z :=
  match s with
  | EmptyString => acc
  | String c r => digits_value (10 * acc + (Z.of_nat (code c) - 48)) r
  end.

(** [parseInt(s, 10)]: leading white space, an optional sign, then the
    longest run of digits; [NaN] when that run is empty. *)
Definition parseInt (s : string) : number :=
  let s1 := trimStart s in
  let '(negative, s2) :=
    match s1 with
    | String c r => if isDash c then (true, r)
                    else if isPlus c then (false, r) else (false, s1)
    | EmptyString => (false, s1)
    end in
  let ds := fst (span isDigit s2) in
  if is_empty ds then NaN
  else let v := digits_value 0 ds in
       of_Z (if negative then - v else v).

End Text.

(* ================================================================== *)
(** * Every division a computation performs: the divisor trace *)
(* ================================================================== *)

(** A computation returns its value together with the divisors of the
    divisions it evaluated, in evaluation order.  JavaScript's [/] never
    throws; the trace is what makes "no division by zero" a statement about
    the code. *)
Module Traced.

Definition t (A : Type) : Type := (A * list number)%type.

Definition ret {A : Type} (a : A) : t A := (a, []).

Definition bind {A B : Type} (m : t A) (f : A -> t B) : t B :=
  let (a, ds) := m in
  let (b, ds') := f a in
  (b, ds ++ ds').

(** The operator [/]. *)
Definition divide (a b : number) : t number := (JS.div a b, [b]).

Definition value {A : Type} (m : t A) : A := fst m.
Definition divisors {A : Type} (m : t A) : list number := snd m.

End Traced.

Notation "x <- m ;; k" := (Traced.bind m (fun x => k))
  (at level 61, m at next level, right associativity).

(* ================================================================== *)
(** * The line extractor and the statistics block ([utils/mls-validator.ts]) *)
(* ================================================================== *)

Module Extractor.

Import Text.

(** ** The six recognizers

    Each [_at] function is the pattern anchored at the head of its argument;
    [search] supplies the leftmost position.  The patterns are such that, at
    a fixed position, giving back characters of a greedy quantifier never
    opens another way to match, so the greedy path decides. *)

(** The pattern [MLS #? \s* ( \d+ [-\s]* \d* )] under [/i], capture 1. *)
Definition mls_at (s : string) : option string :=
  match literal "MLS" s with
  | None => None
  | Some r =>
      let (d1, r1) := span isDigit (skip isSpace (optional isHash r)) in
      if is_empty d1 then None
      else
        let (sep, r2) := span (fun c => isDash c || isSpace c) r1 in
        let (d2, _) := span isDigit r2 in
        Some (d1 ++ sep ++ d2)%string
  end.

Definition mlsMatch (line : string) : option string := search mls_at line.

Definition streetTypes : list string :=
  ["Street"; "St"; "Avenue"; "Ave"; "Road"; "Rd"; "Lane"; "Ln";
   "Drive"; "Dr"; "Court"; "Ct"; "Circle"; "Cir"; "Way"].

Definition notSeparator (c : ascii) : bool := negb (isComma c || isNewline c).

(** The pattern [( \d+ [^,\n]* (?:Street|St|...|Way) [^,\n]* )] under [/i],
    capture 1.  A match at a digit exists exactly when a street type occurs in the comma-free run
    that starts there, and the trailing greedy class then extends the match
    to the end of that run whichever occurrence was taken. *)
Definition address_at (s : string) : option string :=
  match s with
  | String c _ =>
      if isDigit c then
        let run := fst (span notSeparator s) in
        if is_some (search (alternation streetTypes) run) then Some run
        else None
      else None
  | EmptyString => None
  end.

Definition addressMatch (line : string) : option string :=
  search address_at line.

Definition isDigitOrComma (c : ascii) : bool := isDigit c || isComma c.

(** The tail [: \s* \$? ( [\d,]+ )]. *)
Definition price_tail (s : string) : option string :=
  match s with
  | String c r =>
      if isColon c then
        let ds := fst (span isDigitOrComma (optional isDollar (skip isSpace r))) in
        if is_empty ds then None else Some ds
      else None
  | EmptyString => None
  end.

(** The pattern [(?:List|Price|Sold) (?:\s* Price)? : \s* \$? ( [\d,]+ )]
    under [/i], capture 1: the optional group is tried first, then skipped. *)
Definition price_at (s : string) : option string :=
  match alternation ["List"; "Price"; "Sold"] s with
  | None => None
  | Some r =>
      let with_group :=
        match literal "Price" (skip isSpace r) with
        | Some r' => price_tail r'
        | None => None
        end in
      match with_group with
      | Some ds => Some ds
      | None => price_tail r
      end
  end.

Definition priceMatch (line : string) : option string := search price_at line.

(** The pattern [( \d+ ) \s* (?:beds|bedrooms|BR)] under [/i], capture 1. *)
Definition bedroom_at (s : string) : option string :=
  let (d, r) := span isDigit s in
  if is_empty d then None
  else if is_some (alternation ["beds"; "bedrooms"; "BR"] (skip isSpace r))
       then Some d else None.

Definition bedroomMatch (line : string) : option string :=
  search bedroom_at line.

(** The pattern [( \d+ (?:\. \d+)? ) \s* (?:baths|bathrooms|BA)] under [/i],
    capture 1. *)
Definition bathroom_at (s : string) : option string :=
  let (d1, r) := span isDigit s in
  if is_empty d1 then None
  else
    let (n, r1) :=
      match r with
      | String c r' =>
          if isDot c then
            let (d2, r2) := span isDigit r' in
            if is_empty d2 then (d1, r) else ((d1 ++ "." ++ d2)%string, r2)
          else (d1, r)
      | EmptyString => (d1, r)
      end in
    if is_some (alternation ["baths"; "bathrooms"; "BA"] (skip isSpace r1))
    then Some n else None.

Definition bathroomMatch (line : string) : option string :=
  search bathroom_at line.

(** The unit [(?:sqft|sf|square \s* feet)]. *)
Definition sqft_unit (s : string) : option string :=
  match alternation ["sqft"; "sf"] s with
  | Some r => Some r
  | None =>
      match literal "square" s with
      | Some r => literal "feet" (skip isSpace r)
      | None => None
      end
  end.

(** The pattern [( [\d,]+ ) \s* (?:sqft|sf|square \s* feet)] under [/i],
    capture 1. *)
Definition sqft_at (s : string) : option string :=
  let (d, r) := span isDigitOrComma s in
  if is_empty d then None
  else if is_some (sqft_unit (skip isSpace r)) then Some d else None.

Definition sqftMatch (line : string) : option string := search sqft_at line.

(** ** The accumulator *)

Import Property.

Definition set_address (p : Property.t) (v : string) : Property.t :=
  mk (mlsNumber p) (Some v) (city p) (listPrice p) (bedrooms p) (bathrooms p)
     (sqft p) (yearBuilt p) (garage p) (pool p) (acres p) (pricePerSqft p)
     (soldPrice p) (soldDate p) (daysOnMarket p) (saleToListRatio p).

Definition set_listPrice (p : Property.t) (v : number) : Property.t :=
  mk (mlsNumber p) (address p) (city p) (Some v) (bedrooms p) (bathrooms p)
     (sqft p) (yearBuilt p) (garage p) (pool p) (acres p) (pricePerSqft p)
     (soldPrice p) (soldDate p) (daysOnMarket p) (saleToListRatio p).

Definition set_soldPrice (p : Property.t) (v : number) : Property.t :=
  mk (mlsNumber p) (address p) (city p) (listPrice p) (bedrooms p)
     (bathrooms p) (sqft p) (yearBuilt p) (garage p) (pool p) (acres p)
     (pricePerSqft p) (Some v) (soldDate p) (daysOnMarket p)
     (saleToListRatio p).

Definition set_bedrooms (p : Property.t) (v : number) : Property.t :=
  mk (mlsNumber p) (address p) (city p) (listPrice p) (Some v) (bathrooms p)
     (sqft p) (yearBuilt p) (garage p) (pool p) (acres p) (pricePerSqft p)
     (soldPrice p) (soldDate p) (daysOnMarket p) (saleToListRatio p).

Definition set_bathrooms (p : Property.t) (v : string) : Property.t :=
  mk (mlsNumber p) (address p) (city p) (listPrice p) (bedrooms p) (Some v)
     (sqft p) (yearBuilt p) (garage p) (pool p) (acres p) (pricePerSqft p)
     (soldPrice p) (soldDate p) (daysOnMarket p) (saleToListRatio p).

Definition set_sqft (p : Property.t) (v : number) : Property.t :=
  mk (mlsNumber p) (address p) (city p) (listPrice p) (bedrooms p)
     (bathrooms p) (Some v) (yearBuilt p) (garage p) (pool p) (acres p)
     (pricePerSqft p) (soldPrice p) (soldDate p) (daysOnMarket p)
     (saleToListRatio p).

Definition set_pricePerSqft (p : Property.t) (v : number) : Property.t :=
  mk (mlsNumber p) (address p) (city p) (listPrice p) (bedrooms p)
     (bathrooms p) (sqft p) (yearBuilt p) (garage p) (pool p) (acres p)
     (Some v) (soldPrice p) (soldDate p) (daysOnMarket p) (saleToListRatio p).

(** The object literal a new MLS-number line starts. *)
Definition fresh (mls : string) : Property.t :=
  {| mlsNumber := Some mls;
     address := None;
     city := Some "Plano";
     listPrice := Some zero;
     bedrooms := Some zero;
     bathrooms := Some "0/0/0";
     sqft := Some zero;
     yearBuilt := Some zero;
     garage := Some "";
     pool := Some false;
     acres := Some zero;
     pricePerSqft := Some zero;
     soldPrice := None;
     soldDate := None;
     daysOnMarket := None;
     saleToListRatio := None |}.

Record state : Type := mkState {
  properties : list Property.t;
  currentProperty : Property.t }.

(** [if (Object.keys(cur).length > 0 && cur.mlsNumber) properties.push(cur)] *)
Definition flush (st : state) : list Property.t :=
  if Nat.ltb 0 (keys_length (currentProperty st))
     && truthy_str (mlsNumber (currentProperty st))
  then properties st ++ [currentProperty st]
  else properties st.

Definition update (st : state) (p : Property.t) : state :=
  mkState (properties st) p.

(** The sqft branch: store the value, then recompute [pricePerSqft] when the
    list price is truthy. *)
Definition on_sqft (cur : Property.t) (capture : string) : Property.t :=
  let v := parseInt (remove isComma capture) in
  let cur := set_sqft cur v in
  match listPrice cur with
  | Some lp =>
      if truthy lp then set_pricePerSqft cur (Math_round (lp / v)%js) else cur
  | None => cur
  end.

(** One iteration of the line loop.  The accumulator is always an object, so
    the [&& currentProperty] conjunct of every branch is true. *)
Definition step (st : state) (raw : string) : state :=
  let line := trim raw in
  if is_empty line then st
  else
    match mlsMatch line with
    | Some m =>
        mkState (flush st) (fresh (remove (fun c => isDash c || isSpace c) m))
    | None =>
    match addressMatch line with
    | Some a => update st (set_address (currentProperty st) (trim a))
    | None =>
    match priceMatch line with
    | Some p =>
        let price := parseInt (remove isComma p) in
        if includes "sold" (toLowerCase line)
        then update st (set_soldPrice (currentProperty st) price)
        else update st (set_listPrice (currentProperty st) price)
    | None =>
    match bedroomMatch line with
    | Some b => update st (set_bedrooms (currentProperty st) (parseInt b))
    | None =>
    match bathroomMatch line with
    | Some b => update st (set_bathrooms (currentProperty st) (b ++ "/0/0")%string)
    | None =>
    match sqftMatch line with
    | Some f => update st (on_sqft (currentProperty st) f)
    | None => st
    end end end end end end.

Definition initial : state := mkState [] Property.empty.

Definition run (lines : list string) : state := fold_left step lines initial.

(** The flushed sequence [properties] after the loop and the final flush. *)
Definition parse_lines (lines : list string) : list Property.t :=
  flush (run lines).

Definition parse (text : string) : list Property.t :=
  parse_lines (split_lines text).

(** ** Partition into active and closed listings *)

Definition sold (p : Property.t) : bool := truthy_opt (soldPrice p).

(** [properties.forEach(p => p.soldPrice ? closed.push(p) : active.push(p))]:
    the pair is (activeListings, closedListings). *)
Definition separate (ps : list Property.t) : list Property.t * list Property.t :=
  fold_left
    (fun (acc : list Property.t * list Property.t) p =>
       let (active, closed) := acc in
       if sold p then (active, closed ++ [p]) else (active ++ [p], closed))
    ps ([], []).

(** ** The statistics block *)

Import Traced.

(** [prices.reduce((a, b) => a + b, 0)] *)
Definition sum (prices : list number) : number := fold_left JS.add prices zero.

Definition calculateAverage (prices : list number) : Traced.t number :=
  match prices with
  | [] => ret zero
  | _ =>
      q <- divide (sum prices) (of_nat (List.length prices)) ;;
      ret (Math_round q)
  end.

(** [[...prices].sort((a, b) => a - b)]: a stable insertion sort driven by
    the comparator, [x] going after [y] only when [x - y > 0]. *)
Definition compareFn (a b : number) : number := (a - b)%js.

Fixpoint insert (x : number) (l : list number) : list number :=
  match l with
  | [] => [x]
  | y :: r => if (compareFn x y >? zero)%js then y :: insert x r else x :: l
  end.

Definition sort (l : list number) : list number := fold_right insert [] l.

Definition calculateMedian (prices : list number) : Traced.t number :=
  match prices with
  | [] => ret zero
  | _ =>
      let sorted := sort prices in
      h <- divide (of_nat (List.length sorted)) (Num 2) ;;
      let mid := Math_floor h in
      if Nat.eqb (Nat.modulo (List.length sorted) 2) 0
      then
        q <- divide (to_number (index sorted (mid - one)%js)
                     + to_number (index sorted mid))%js (Num 2) ;;
        ret (Math_round q)
      else ret (to_number (index sorted mid))
  end.

(** [v || 0] for a possibly-undefined number. *)
Definition or_zero (v : option number) : number :=
  if truthy_opt v then to_number v else zero.

Definition positive (n : number) : bool := (n >? zero)%js.

(** [activeListings.map(p => p.listPrice).filter(p => p > 0)] *)
Definition activeListPricesOf (active : list Property.t) : list number :=
  filter positive (map (fun p => to_number (listPrice p)) active).

(** [closedListings.map(p => p.soldPrice || 0).filter(p => p > 0)] *)
Definition soldPricesOf (closed : list Property.t) : list number :=
  filter positive (map (fun p => or_zero (soldPrice p)) closed).

(** The [statistics] object literal, its fields evaluated in source order. *)
Definition synthesize (activeListings closedListings : list Property.t)
  : Traced.t Statistics.t :=
  let activeListPrices := activeListPricesOf activeListings in
  let soldPrices := soldPricesOf closedListings in
  let nActive := of_nat (List.length activeListings) in
  let nClosed := of_nat (List.length closedListings) in
  let dom := map (fun p => or_zero (daysOnMarket p)) closedListings in
  averageListPrice <- calculateAverage activeListPrices ;;
  medianListPrice <- calculateMedian activeListPrices ;;
  averageSoldPrice <- calculateAverage soldPrices ;;
  medianSoldPrice <- calculateMedian soldPrices ;;
  averageDaysOnMarket <- calculateAverage dom ;;
  medianDaysOnMarket <- calculateMedian dom ;;
  averagePrice <- calculateAverage (activeListPrices ++ soldPrices) ;;
  medianPrice <- calculateMedian (activeListPrices ++ soldPrices) ;;
  pricePerSquareFoot <-
    calculateAverage
      (map (fun p => to_number (pricePerSqft p))
           (activeListings ++ closedListings)) ;;
  absorptionRate <- divide nClosed (or_else nActive one) ;;
  listToSoldRatio <-
    match soldPrices with
    | [] => ret one
    | _ =>
        s <- calculateAverage soldPrices ;;
        l <- calculateAverage activeListPrices ;;
        divide s l
    end ;;
  third <- divide nClosed (Num 3) ;;
  monthsOfSupply <- divide nActive (or_else third one) ;;
  ret {| Statistics.averageDaysOnMarket := averageDaysOnMarket;
         Statistics.medianDaysOnMarket := medianDaysOnMarket;
         Statistics.totalActiveListings := nActive;
         Statistics.totalClosedSales := nClosed;
         Statistics.averagePrice := averagePrice;
         Statistics.medianPrice := medianPrice;
         Statistics.pricePerSquareFoot := pricePerSquareFoot;
         Statistics.inventoryLevel := nActive;
         Statistics.daysOfInventory := Num 90;
         Statistics.absorptionRate := absorptionRate;
         Statistics.newListings := Math_round (nActive * Num (1 # 4))%js;
         Statistics.closedListings := nClosed;
         Statistics.pendingListings := Math_round (nActive * Num (1 # 10))%js;
         Statistics.canceledListings := Math_round (nActive * Num (1 # 20))%js;
         Statistics.averageListPrice := averageListPrice;
         Statistics.medianListPrice := medianListPrice;
         Statistics.averageSoldPrice := averageSoldPrice;
         Statistics.medianSoldPrice := medianSoldPrice;
         Statistics.listToSoldRatio := listToSoldRatio;
         Statistics.monthsOfSupply := monthsOfSupply |}.

Definition statisticsOf (activeListings closedListings : list Property.t)
  : Statistics.t :=
  value (synthesize activeListings closedListings).

(** ** The report *)

(** [properties[0]?.field || fallback] *)
Definition first_string (ps : list Property.t)
    (field : Property.t -> option string) (fallback : string) : string :=
  match ps with
  | p :: _ => if truthy_str (field p)
              then match field p with Some s => s | None => fallback end
              else fallback
  | [] => fallback
  end.

Definition first_number (ps : list Property.t)
    (field : Property.t -> option number) : number :=
  match ps with
  | p :: _ => or_zero (field p)
  | [] => zero
  end.

Definition zeroForecast : ForecastData.t := ForecastData.mk zero zero.
Definition zeroMetric : DemographicMetric.t :=
  DemographicMetric.mk zero "stable" zero.

Definition report_of (ps : list Property.t) : MLSReport.t :=
  let (activeListings, closedListings) := separate ps in
  {| MLSReport.mlsNumber := first_string ps mlsNumber "UNKNOWN";
     MLSReport.listPrice := first_number ps listPrice;
     MLSReport.propertyType := "Single Family";
     MLSReport.bedrooms := first_number ps bedrooms;
     MLSReport.bathrooms := zero;
     MLSReport.squareFeet := first_number ps sqft;
     MLSReport.yearBuilt := first_number ps yearBuilt;
     MLSReport.lotSize := first_number ps acres;
     MLSReport.description := "Property details extracted from MLS data";
     MLSReport.address :=
       Address.mk (first_string ps address "") (first_string ps city "")
                  "TX" "00000";
     MLSReport.features := [];
     MLSReport.photos := [];
     MLSReport.marketTrends :=
       MarketTrends.mk [] []
         (ForecastTriple.mk zeroForecast zeroForecast zeroForecast);
     MLSReport.statistics := statisticsOf activeListings closedListings;
     MLSReport.schoolDistrict :=
       SchoolDistrict.mk "Unknown School District" zero (Schools.mk [] [] []);
     MLSReport.demographics :=
       Demographics.mk zero zero zero zero (EducationLevel.mk zero zero zero);
     MLSReport.activeListings := activeListings;
     MLSReport.closedListings := closedListings;
     MLSReport.schoolDistricts := [];
     MLSReport.demographicAnalysis :=
       DemographicAnalysis.mk zeroMetric zeroMetric zeroMetric zeroMetric
         (EducationLevels.mk zeroMetric zeroMetric zeroMetric) |}.

Definition extractMLSData (text : string) : MLSReport.t :=
  report_of (parse text).

End Extractor.

(* ================================================================== *)
(** * The assertion-style validator ([utils/market-data-validator.ts]) *)
(* ================================================================== *)

Module Validator.

Import Text.

Record ValidationError : Type := mkError { message : string; field : string }.

(** What a validator can throw: a [ValidationError], or the [TypeError] of
    reading a property of [undefined]. *)
Inductive exn : Type :=
| EValidation (e : ValidationError)
| ETypeError.

Inductive result (A : Type) : Type :=
| Ok (a : A)
| Throw (e : exn).

Arguments Ok {A} a.
Arguments Throw {A} e.

(** Statement sequencing: the second statement runs when the first returned. *)
Definition seq (a b : result unit) : result unit :=
  match a with
  | Ok _ => b
  | Throw e => Throw e
  end.

Notation "a >> b" := (seq a b) (at level 75, right associativity).

(** [if (violated) throw new ValidationError(msg, fld)] *)
Definition guard (violated : bool) (msg fld : string) : result unit :=
  if violated then Throw (EValidation (mkError msg fld)) else Ok tt.

(** [array.forEach((x, index) => body)] *)
Fixpoint forEach_from {A : Type} (body : A -> nat -> result unit)
    (l : list A) (index : nat) : result unit :=
  match l with
  | [] => Ok tt
  | x :: r => body x index >> forEach_from body r (S index)
  end.

Definition forEach {A : Type} (body : A -> nat -> result unit) (l : list A)
  : result unit := forEach_from body l 0.

(** [try { r } catch (error) { if (error instanceof ValidationError) throw
    wrap(error); throw error; }] *)
Definition rethrow (r : result unit) (wrap : ValidationError -> ValidationError)
  : result unit :=
  match r with
  | Throw (EValidation e) => Throw (EValidation (wrap e))
  | _ => r
  end.

(** Decimal rendering of an index inside a template string. *)
Definition show (n : nat) : string := NilEmpty.string_of_uint (Nat.to_uint n).

Module THRESHOLDS.
Definition PRICE_VOLATILITY : number := Num (15 # 100).
Definition MAX_PRICE_DROP : number := Num (20 # 100).
Definition MIN_CONFIDENCE : number := Num (5 # 10).
Definition MAX_CONFIDENCE : number := Num 1.
Definition MAX_SCHOOL_DISTANCE : number := Num 10.
Definition MIN_STUDENT_TEACHER_RATIO : number := Num 10.
Definition MAX_STUDENT_TEACHER_RATIO : number := Num 30.
Definition MAX_ABSORPTION_RATE : number := Num 100.
Definition MAX_PRICE_TO_INCOME_RATIO : number := Num 5.
Definition MAX_PRICE_TO_RENT_RATIO : number := Num 30.
Definition MAX_SEASONAL_VOLUME_CHANGE : number := Num (5 # 10).
Definition MAX_YOY_GROWTH : number := Num (30 # 100).
Definition MAX_PRICE_DEVIATION : number := Num (5 # 10).
Definition MIN_DAYS_ON_MARKET : number := Num 5.
Definition MAX_POPULATION_DENSITY : number := Num 10000.
End THRESHOLDS.

Module BUYERS_MARKET.
Definition MIN_MONTHS_SUPPLY : number := Num 6.
Definition MIN_DAYS_ON_MARKET : number := Num 60.
Definition MAX_ABSORPTION_RATE : number := Num 40.
Definition MAX_LIST_TO_SOLD_RATIO : number := Num (95 # 100).
End BUYERS_MARKET.

Module SELLERS_MARKET.
Definition MAX_MONTHS_SUPPLY : number := Num 3.
Definition MAX_DAYS_ON_MARKET : number := Num 30.
Definition MIN_ABSORPTION_RATE : number := Num 60.
Definition MIN_LIST_TO_SOLD_RATIO : number := Num (98 # 100).
End SELLERS_MARKET.

(** ** Type guards

    A typed record already has the keys and the [typeof]s the guards test;
    what remains of each guard is what the types do not fix. *)

Definition member (s : string) (l : list string) : bool :=
  existsb (String.eqb s) l.

Definition trends : list string := ["increasing"; "decreasing"; "stable"].
Definition schoolTypes : list string := ["elementary"; "middle"; "high"].

Definition isDemographicMetric (value : DemographicMetric.t) : bool :=
  member (DemographicMetric.trend value) trends.

Definition isEducationLevels (value : EducationLevels.t) : bool :=
  forallb isDemographicMetric
    [EducationLevels.highSchool value; EducationLevels.bachelors value;
     EducationLevels.graduate value].

Definition isSchoolInfo (value : SchoolInfo.t) : bool :=
  member (SchoolInfo.type value) schoolTypes.

(** The twelve required keys of a listing are present. *)
Definition isProperty (value : Property.t) : bool :=
  is_some (Property.mlsNumber value) && is_some (Property.address value)
  && is_some (Property.city value) && is_some (Property.listPrice value)
  && is_some (Property.bedrooms value) && is_some (Property.bathrooms value)
  && is_some (Property.sqft value) && is_some (Property.yearBuilt value)
  && is_some (Property.garage value) && is_some (Property.pool value)
  && is_some (Property.acres value) && is_some (Property.pricePerSqft value).

(** ** Rule groups *)

(** The pattern [^\d{4}-\d{2}$]. *)
Definition dateRegex (s : string) : bool :=
  match s with
  | String a (String b (String c (String d (String e (String f (String g
      EmptyString)))))) =>
      isDigit a && isDigit b && isDigit c && isDigit d && isDash e
      && isDigit f && isDigit g
  | _ => false
  end.

Definition validatePricePoint (value : PricePoint.t) : result unit :=
  guard (negb (dateRegex (PricePoint.date value)))
        "Invalid date format. Expected YYYY-MM" "date" >>
  guard (PricePoint.price value <=? zero)%js
        "Invalid price. Must be a positive number" "price" >>
  guard (PricePoint.volume value <? zero)%js
        "Invalid volume. Must be a positive number" "volume".

Definition indexed (array : string) (index : nat) (key : string) : string :=
  (array ++ "[" ++ show index ++ "]." ++ key)%string.

(** The entries of the forecast object, in declaration order. *)
Definition forecastEntries (f : ForecastTriple.t)
  : list (string * ForecastData.t) :=
  [("nextMonth", ForecastTriple.nextMonth f);
   ("nextQuarter", ForecastTriple.nextQuarter f);
   ("nextYear", ForecastTriple.nextYear f)].

Definition validateMarketTrends (value : MarketTrends.t) : result unit :=
  (* price history chronology and volatility *)
  forEach (fun point index =>
    validatePricePoint point >>
    if Nat.ltb 0 index then
      match nth_error (MarketTrends.priceHistory value) (index - 1) with
      | None => Throw ETypeError
      | Some prevPoint =>
          guard (String.leb (PricePoint.date point) (PricePoint.date prevPoint))
                "Price history must be in chronological order"
                (indexed "priceHistory" index "date") >>
          let priceChange :=
            Math_abs ((PricePoint.price point - PricePoint.price prevPoint)
                      / PricePoint.price prevPoint)%js in
          guard (priceChange >? THRESHOLDS.PRICE_VOLATILITY)%js
                "Price volatility exceeds market threshold"
                (indexed "priceHistory" index "price")
      end
    else Ok tt)
    (MarketTrends.priceHistory value) >>
  (* seasonality *)
  forEach (fun point index =>
    guard ((SeasonalityData.month point <? one)
           || (SeasonalityData.month point >? Num 12))%js
          "Invalid month. Must be between 1 and 12"
          (indexed "seasonality" index "month") >>
    if Nat.ltb 0 index then
      match nth_error (MarketTrends.seasonality value) (index - 1) with
      | None => Throw ETypeError
      | Some prev =>
          let volumeChange :=
            Math_abs ((SeasonalityData.salesVolume point
                       - SeasonalityData.salesVolume prev)
                      / SeasonalityData.salesVolume prev)%js in
          guard (volumeChange >? THRESHOLDS.MAX_SEASONAL_VOLUME_CHANGE)%js
                "Invalid seasonal volume pattern"
                (indexed "seasonality" index "salesVolume")
      end
    else Ok tt)
    (MarketTrends.seasonality value) >>
  (* forecasts *)
  forEach (fun (entry : string * ForecastData.t) _ =>
    let (period, forecast) := entry in
    guard ((ForecastData.confidence forecast <? THRESHOLDS.MIN_CONFIDENCE)
           || (ForecastData.confidence forecast >? THRESHOLDS.MAX_CONFIDENCE))%js
          "Invalid confidence value"
          ("forecast." ++ period ++ ".confidence")%string >>
    guard (String.eqb period "nextYear"
           && (Math_abs (ForecastData.priceChange forecast)
               >? THRESHOLDS.MAX_YOY_GROWTH)%js)
          "Annual growth rate exceeds historical bounds"
          ("forecast." ++ period ++ ".priceChange")%string)
    (forecastEntries (MarketTrends.forecast value)).

Definition validateSchoolInfo (value : SchoolInfo.t) : result unit :=
  guard (negb (isSchoolInfo value)) "Invalid school info structure" "structure" >>
  guard ((SchoolInfo.rating value <? zero)
         || (SchoolInfo.rating value >? Num 10))%js
        "Invalid school rating. Must be between 0 and 10" "rating" >>
  guard (negb (member (SchoolInfo.type value) schoolTypes))
        "Invalid school type. Must be elementary, middle, or high" "type" >>
  guard ((SchoolInfo.distance value <? zero)
         || (SchoolInfo.distance value >? THRESHOLDS.MAX_SCHOOL_DISTANCE))%js
        "School district outside reasonable distance" "distance" >>
  guard ((SchoolInfo.studentTeacherRatio value
            <? THRESHOLDS.MIN_STUDENT_TEACHER_RATIO)
         || (SchoolInfo.studentTeacherRatio value
               >? THRESHOLDS.MAX_STUDENT_TEACHER_RATIO))%js
        "Invalid student-teacher ratio" "studentTeacherRatio".

Definition validateDemographicMetric (value : DemographicMetric.t)
  : result unit :=
  guard (negb (isDemographicMetric value))
        "Invalid demographic metric structure" "structure" >>
  guard (DemographicMetric.value value <=? zero)%js
        "Invalid demographic value. Must be a positive number" "value" >>
  guard (negb (member (DemographicMetric.trend value) trends))
        "Invalid trend. Must be increasing, decreasing, or stable" "trend".

Definition isSlash (c : ascii) : bool := Nat.eqb (code c) 47.

(** The double-quote character, as a one-character string. *)
Definition quote : string := String (ascii_of_nat 34) EmptyString.

(** The pattern [^\d+/\d+/\d+$]. *)
Definition bathroomsRegex (s : string) : bool :=
  let (a, r1) := span isDigit s in
  match r1 with
  | String c1 r2 =>
      let (b, r3) := span isDigit r2 in
      match r3 with
      | String c2 r4 =>
          let (c, r5) := span isDigit r4 in
          negb (is_empty a) && isSlash c1 && negb (is_empty b) && isSlash c2
          && negb (is_empty c) && is_empty r5
      | EmptyString => false
      end
  | EmptyString => false
  end.

Definition validateProperty (value : Property.t) : result unit :=
  guard (negb (isProperty value)) "Invalid property structure" "structure" >>
  match Property.listPrice value, Property.sqft value, Property.address value,
        Property.bedrooms value, Property.bathrooms value,
        Property.pricePerSqft value with
  | Some listPrice, Some sqft, Some address, Some bedrooms, Some bathrooms,
    Some pricePerSqft =>
      guard (listPrice <=? zero)%js
            "Invalid list price. Must be a positive number" "listPrice" >>
      guard (sqft <=? zero)%js
            "Invalid square footage. Must be a positive number" "sqft" >>
      guard (is_empty (trim address)) "Invalid address" "address" >>
      guard (bedrooms <=? zero)%js
            "Invalid number of bedrooms. Must be a positive number" "bedrooms" >>
      guard (negb (bathroomsRegex bathrooms))
            ("Invalid bathroom format. Must be in format " ++ quote
             ++ "full/half/quarter" ++ quote)%string
            "bathrooms" >>
      let calculatedPricePerSqft := (listPrice / sqft)%js in
      guard (Math_abs (calculatedPricePerSqft - pricePerSqft) >? one)%js
            "Invalid price per square foot" "pricePerSqft"
  | _, _, _, _, _, _ => Throw ETypeError
  end.

Definition validateMarketConditions (report : MLSReport.t) : result unit :=
  let statistics := MLSReport.statistics report in
  (* buyer's market *)
  (if (Statistics.monthsOfSupply statistics
         >=? BUYERS_MARKET.MIN_MONTHS_SUPPLY)%js
   then
     guard ((Statistics.absorptionRate statistics
               >? BUYERS_MARKET.MAX_ABSORPTION_RATE)
            || (Statistics.listToSoldRatio statistics
                  >? BUYERS_MARKET.MAX_LIST_TO_SOLD_RATIO)
            || (Statistics.averageDaysOnMarket statistics
                  <? BUYERS_MARKET.MIN_DAYS_ON_MARKET))%js
           "Inconsistent market condition indicators" "statistics"
   else Ok tt) >>
  (* seller's market *)
  (if (Statistics.monthsOfSupply statistics
         <=? SELLERS_MARKET.MAX_MONTHS_SUPPLY)%js
   then
     guard ((Statistics.absorptionRate statistics
               <? SELLERS_MARKET.MIN_ABSORPTION_RATE)
            || (Statistics.listToSoldRatio statistics
                  <? SELLERS_MARKET.MIN_LIST_TO_SOLD_RATIO)
            || (Statistics.averageDaysOnMarket statistics
                  >? SELLERS_MARKET.MAX_DAYS_ON_MARKET))%js
           "Inconsistent market condition indicators" "statistics"
   else Ok tt) >>
  (* price trends *)
  guard ((Statistics.averageSoldPrice statistics
            >? Statistics.averageListPrice statistics)
         && (Statistics.listToSoldRatio statistics <? one))%js
        "Inconsistent sale-to-list metrics" "statistics" >>
  (* inventory metrics *)
  let calculatedInventory :=
    (Statistics.totalActiveListings statistics
     + Statistics.pendingListings statistics)%js in
  guard (Math_abs (calculatedInventory - Statistics.inventoryLevel statistics)
         >? Num 5)%js
        "Inconsistent inventory metrics" "statistics".

Definition validateDemographicTrends (report : MLSReport.t) : result unit :=
  let demographicAnalysis := MLSReport.demographicAnalysis report in
  let statistics := MLSReport.statistics report in
  let educationLevels := DemographicAnalysis.educationLevels demographicAnalysis in
  let population := DemographicAnalysis.population demographicAnalysis in
  let medianIncome := DemographicAnalysis.medianIncome demographicAnalysis in
  let employmentRate := DemographicAnalysis.employmentRate demographicAnalysis in
  guard (negb (isEducationLevels educationLevels))
        "Invalid education levels structure"
        "demographicAnalysis.educationLevels" >>
  let totalEducation :=
    fold_left (fun sum metric => (sum + DemographicMetric.value metric)%js)
      [EducationLevels.highSchool educationLevels;
       EducationLevels.bachelors educationLevels;
       EducationLevels.graduate educationLevels] zero in
  guard (totalEducation >? Num (11 # 10))%js
        "Invalid education level total" "demographicAnalysis.educationLevels" >>
  guard (negb (isDemographicMetric population))
        "Invalid population metric structure" "demographicAnalysis.population" >>
  guard (DemographicMetric.value population
           >? THRESHOLDS.MAX_POPULATION_DENSITY)%js
        "Population exceeds geographic bounds" "demographicAnalysis.population" >>
  guard (negb (isDemographicMetric medianIncome))
        "Invalid median income metric structure"
        "demographicAnalysis.medianIncome" >>
  let priceToIncomeRatio :=
    (Statistics.medianPrice statistics / DemographicMetric.value medianIncome)%js in
  guard (priceToIncomeRatio >? THRESHOLDS.MAX_PRICE_TO_INCOME_RATIO)%js
        "Price-to-income ratio exceeds reasonable threshold"
        "statistics.medianPrice" >>
  guard (negb (isDemographicMetric employmentRate))
        "Invalid employment rate metric structure"
        "demographicAnalysis.employmentRate" >>
  guard (String.eqb (DemographicMetric.trend medianIncome) "decreasing"
         && String.eqb (DemographicMetric.trend employmentRate) "decreasing"
         && (Statistics.medianPrice statistics
               >? Statistics.medianListPrice statistics)%js)
        "Inconsistent trend indicators" "demographicAnalysis".

(** The four top-level metrics of the demographic analysis, in declaration
    order; [educationLevels] follows them. *)
Definition metricEntries (d : DemographicAnalysis.t)
  : list (string * DemographicMetric.t) :=
  [("population", DemographicAnalysis.population d);
   ("medianAge", DemographicAnalysis.medianAge d);
   ("medianIncome", DemographicAnalysis.medianIncome d);
   ("employmentRate", DemographicAnalysis.employmentRate d)].

Definition educationEntries (e : EducationLevels.t)
  : list (string * DemographicMetric.t) :=
  [("highSchool", EducationLevels.highSchool e);
   ("bachelors", EducationLevels.bachelors e);
   ("graduate", EducationLevels.graduate e)].

Definition bucket (report : MLSReport.t) (index : nat) : string :=
  if Nat.ltb index (List.length (MLSReport.activeListings report))
  then "activeListings" else "closedListings".

Definition validateMLSReport (report : MLSReport.t) : result unit :=
  validateMarketTrends (MLSReport.marketTrends report) >>
  (* school districts *)
  forEach (fun school index =>
    rethrow (validateSchoolInfo school)
      (fun error =>
         mkError
           ("Invalid school district at index " ++ show index ++ ": "
            ++ message error)%string
           (indexed "schoolDistricts" index (field error))))
    (MLSReport.schoolDistricts report) >>
  (* demographic analysis *)
  forEach (fun (entry : string * DemographicMetric.t) _ =>
    let (key, metric) := entry in
    rethrow (validateDemographicMetric metric)
      (fun error =>
         mkError ("Invalid demographic metric for " ++ key)%string
                 ("demographicAnalysis." ++ key ++ "." ++ field error)%string))
    (metricEntries (MLSReport.demographicAnalysis report)) >>
  forEach (fun (entry : string * DemographicMetric.t) _ =>
    let (level, eduMetric) := entry in
    rethrow (validateDemographicMetric eduMetric)
      (fun error =>
         mkError
           ("Invalid demographic metric for educationLevels." ++ level)%string
           ("demographicAnalysis.educationLevels." ++ level ++ "."
            ++ field error)%string))
    (educationEntries
       (DemographicAnalysis.educationLevels
          (MLSReport.demographicAnalysis report))) >>
  (* properties *)
  forEach (fun property index =>
    rethrow (validateProperty property)
      (fun error =>
         mkError
           ("Invalid property in " ++ bucket report index ++ " at index "
            ++ show index ++ ": " ++ message error)%string
           (indexed (bucket report index) index (field error))))
    (MLSReport.activeListings report ++ MLSReport.closedListings report) >>
  validateMarketConditions report >>
  validateDemographicTrends report >>
  (* statistics *)
  guard (Statistics.absorptionRate (MLSReport.statistics report)
           >? THRESHOLDS.MAX_ABSORPTION_RATE)%js
        "Invalid absorption rate. Must be between 0 and 100"
        "statistics.absorptionRate" >>
  let priceDeviation :=
    (Math_abs (Statistics.averagePrice (MLSReport.statistics report)
               - Statistics.medianPrice (MLSReport.statistics report))
     / Statistics.medianPrice (MLSReport.statistics report))%js in
  guard (priceDeviation >? THRESHOLDS.MAX_PRICE_DEVIATION)%js
        "Price distribution exceeds normal bounds" "statistics" >>
  guard (Statistics.averageDaysOnMarket (MLSReport.statistics report)
           <? THRESHOLDS.MIN_DAYS_ON_MARKET)%js
        "Invalid average days on market" "statistics.averageDaysOnMarket".

End Validator.

(* ================================================================== *)
(** * The error-collecting validator ([utils/mls-validator.ts]) *)
(* ================================================================== *)

Module Collector.

Import Text.

Section Host.

(** The string a template literal makes of a number. *)
Variable toString : number -> string.

(** [new Date().getFullYear()], the same at every evaluation of one call. *)
Variable currentYear : number.

(** A possibly-undefined number inside a template literal. *)
Definition template (v : option number) : string :=
  match v with
  | Some n => toString n
  | None => "undefined"
  end.

(** [if (cond) errors.push(message)] *)
Definition push_if (cond : bool) (message : string) : list string :=
  if cond then [message] else [].

(** [v < lo || v > hi] on a possibly-undefined number. *)
Definition outside (v : option number) (lo hi : number) : bool :=
  ((to_number v <? lo) || (to_number v >? hi))%js.

(** The body of the [forEach] over the active listings. *)
Definition listingErrors (property : Property.t) (index : nat) : list string :=
  push_if (negb (truthy_str (Property.mlsNumber property)))
          ("Missing MLS number for active listing " ++ Validator.show index)
  ++ push_if (negb (truthy_str (Property.address property)))
             ("Missing address for active listing " ++ Validator.show index)
  ++ push_if (negb (truthy_opt (Property.listPrice property)))
             ("Missing list price for active listing " ++ Validator.show index)
  ++ push_if (outside (Property.bedrooms property) zero (Num 20))
             ("Bedrooms value " ++ template (Property.bedrooms property)
              ++ " is outside valid range [0-20]")
  ++ push_if (outside (Property.sqft property) (Num 100) (Num 100000))
             ("Square footage value " ++ template (Property.sqft property)
              ++ " is outside valid range [100-100000]")
  ++ push_if (outside (Property.yearBuilt property) (Num 1800) currentYear)
             ("Year built value " ++ template (Property.yearBuilt property)
              ++ " is outside valid range [1800-" ++ toString currentYear ++ "]")
  ++ push_if (outside (Property.acres property) zero (Num 1000))
             ("Acres value " ++ template (Property.acres property)
              ++ " is outside valid range [0-1000]").

(** [listings.forEach((property, index) => ...)], the errors in push order. *)
Fixpoint forEachListing (listings : list Property.t) (index : nat)
  : list string :=
  match listings with
  | [] => []
  | property :: rest =>
      listingErrors property index ++ forEachListing rest (S index)
  end.

Definition validatePrice (price : number) (name : string) : list string :=
  push_if (price <? zero)%js
          ("Negative value not allowed for " ++ name ++ ": " ++ toString price)
  ++ push_if ((price <? Num 1000) || (price >? Num 100000000))%js
             (name ++ " value " ++ toString price
              ++ " is outside valid range [1000-100000000]").

Definition validateMLSReport (report : MLSReport.t) : list string :=
  let stats := MLSReport.statistics report in
  forEachListing (MLSReport.activeListings report) 0
  ++ validatePrice (Statistics.averageListPrice stats) "Average list price"
  ++ validatePrice (Statistics.medianListPrice stats) "Median list price"
  ++ (if (Statistics.averageSoldPrice stats >? zero)%js
      then validatePrice (Statistics.averageSoldPrice stats) "Average sold price"
      else [])
  ++ (if (Statistics.medianSoldPrice stats >? zero)%js
      then validatePrice (Statistics.medianSoldPrice stats) "Median sold price"
      else [])
  ++ (let priceDiff :=
        Math_abs (Statistics.averageListPrice stats
                  - Statistics.medianListPrice stats)%js in
      push_if (priceDiff >? Statistics.averageListPrice stats * Num (1 # 2))%js
              "Large discrepancy between average and median list prices")
  ++ push_if (Statistics.averageDaysOnMarket stats <? zero)%js
             ("Negative value not allowed for averageDaysOnMarket: "
              ++ toString (Statistics.averageDaysOnMarket stats)).

End Host.

End Collector.


(* ================================================================== *)
(** * The market forecast engine ([components/PDFUpload.tsx]) *)
(* ================================================================== *)

Module MarketPredictions.

Import Text.

Inductive Direction : Type := increasing | decreasing | stable.

Record Trend : Type := mkTrend { strength : number; direction : Direction }.

Record MAPoint : Type := mkMA { ma_date : string; ma_price : number }.


Inductive thrown : Type := TypeError | RangeError.

Inductive result (A : Type) : Type :=
| Ok (a : A)
| Throw (e : thrown).

Arguments Ok {A} a.
Arguments Throw {A} e.

(** ** Moving average *)

Definition sumPrices (slice : list PricePoint.t) : number :=
  fold_left (fun acc curr => (acc + PricePoint.price curr)%js) slice zero.

(** [prices.map((_, index, array) => ...).filter(p => p !== null)] *)
Definition calculateMovingAverage (prices : list PricePoint.t) (period : nat)
  : list MAPoint :=
  flat_map
    (fun index =>
       if Nat.ltb (S index) period then []
       else
         match nth_error prices index with
         | Some p =>
             let slice := firstn period (skipn (S index - period) prices) in
             [mkMA (PricePoint.date p) (sumPrices slice / of_nat period)%js]
         | None => []
         end)
    (seq 0 (List.length prices)).

(** ** Trend strength *)

(** [recentPrices.map((p, i) => i === 0 ? 0 : (p.price - prev.price) /
    prev.price * 100)], [prev] being [recentPrices[i - 1]]. *)
Definition priceChangesOf (recentPrices : list PricePoint.t) : list number :=
  map
    (fun i =>
       match i with
       | O => zero
       | S j =>
           match nth_error recentPrices i, nth_error recentPrices j with
           | Some p, Some prev =>
               ((PricePoint.price p - PricePoint.price prev)
                / PricePoint.price prev * Num 100)%js
           | _, _ => NaN
           end
       end)
    (seq 0 (List.length recentPrices)).

Definition avgChangeOf (priceChanges : list number) : number :=
  (fold_left JS.add priceChanges zero
   / of_nat (List.length priceChanges - 1))%js.

Definition volatilityOf (priceChanges : list number) (avgChange : number)
  : number :=
  Math_sqrt
    (fold_left (fun acc val => (acc + Math_pow (val - avgChange) 2)%js)
       priceChanges zero
     / of_nat (List.length priceChanges))%js.

Definition calculateTrendStrength (recentPrices : list PricePoint.t) : Trend :=
  if Nat.ltb (List.length recentPrices) 2 then mkTrend zero stable
  else
    let priceChanges := priceChangesOf recentPrices in
    let avgChange := avgChangeOf priceChanges in
    let volatility := volatilityOf priceChanges avgChange in
    mkTrend (Math_abs avgChange / volatility)%js
            (if (avgChange >? zero)%js then increasing
             else if (avgChange <? zero)%js then decreasing
             else stable).

(** ** Dates

    A [Date] built from a [YYYY-MM] string is the first day of that month;
    the host time zone is taken to be UTC.  Any other string is an invalid
    date ([None]). *)

Record Date : Type := mkDate { year : nat; monthIndex : nat }.

Definition digit (c : ascii) : nat := (code c - 48)%nat.

Definition parseDate (s : string) : option Date :=
  match s with
  | String a (String b (String c (String d (String e (String f (String g
      EmptyString)))))) =>
      if isDigit a && isDigit b && isDigit c && isDigit d && isDash e
         && isDigit f && isDigit g
      then
        let m := (10 * digit f + digit g)%nat in
        if Nat.leb 1 m && Nat.leb m 12
        then Some (mkDate (1000 * digit a + 100 * digit b + 10 * digit c
                           + digit d) (m - 1))
        else None
      else None
  | _ => None
  end.


Fixpoint pad (width : nat) (s : string) : string :=
  match width with
  | O => s
  | S w => if Nat.ltb (String.length s) width
           then pad w (String "0" s) else s
  end.

(** [d.toISOString().slice(0, 7)] *)
Definition isoMonth (d : Date) : string :=
  if Nat.leb (String.length (Validator.show (year d))) 4
  then (pad 4 (Validator.show (year d)) ++ "-"
        ++ pad 2 (Validator.show (S (monthIndex d))))%string
  else ("+" ++ pad 6 (Validator.show (year d)))%string.

(** ** Predictions *)

(** [seasonality[month]] on an array of [number | null]: [None] is
    [undefined] (no such index), [Some None] is [null]. *)
Definition entry (seasonality : list (option number)) (month : option nat)
  : option (option number) :=
  match month with
  | Some m => nth_error seasonality m
  | None => None
  end.







End MarketPredictions.

(* ================================================================== *)
(** * The seasonality pattern ([components/PDFUpload.tsx]) *)
(* ================================================================== *)

Module SeasonalityPattern.

(** The elements of an array of numbers that may have holes: [None] is a
    hole.  Properties under keys that are no array index are left out: no
    element and no length depends on them. *)
Definition sparse : Type := list (option number).

(** The array index a number used as a property key stands for: an integer
    from 0 to 2^32 - 2. *)
Definition arrayIndex (key : number) : option nat :=
  match key with
  | Num x =>
      if Qeq_bool x (inject_Z (Qfloor x)) && Qle_bool 0 x
         && Qle_bool x (inject_Z (2 ^ 32 - 2))
      then Some (Z.to_nat (Qfloor x))
      else None
  | _ => None
  end.

(** [arr[i]] as an operand of [+] or [++]: a hole and an index past the end
    are [undefined], which is [NaN]. *)
Definition read (arr : sparse) (i : nat) : number :=
  match nth_error arr i with
  | Some (Some v) => v
  | _ => NaN
  end.

(** [arr[i] = v]: an index past the end grows the array, leaving holes. *)
Fixpoint store (arr : sparse) (i : nat) (v : number) : sparse :=
  match arr, i with
  | [], O => [Some v]
  | [], S j => None :: store [] j v
  | _ :: r, O => Some v :: r
  | x :: r, S j => x :: store r j v
  end.

(** The two accumulators. *)
Record sums : Type := mkSums { avgByMonth : sparse; countByMonth : sparse }.

(** The body of the [forEach]. *)
Definition accumulate (acc : sums) (data : SeasonalityData.t) : sums :=
  match arrayIndex (SeasonalityData.month data - one)%js with
  | Some i =>
      mkSums
        (store (avgByMonth acc) i
               (read (avgByMonth acc) i + SeasonalityData.averagePrice data)%js)
        (store (countByMonth acc) i (read (countByMonth acc) i + one)%js)
  | None => acc
  end.

(** [new Array(12).fill(0)] *)
Definition zeros : sparse := repeat (Some zero) 12.

(** The callback of the final [map], which skips holes: [None] is a hole of
    the result, [Some None] is [null]. *)
Definition average (countByMonth : sparse) (i : nat) (slot : option number)
  : option (option number) :=
  match slot with
  | None => None
  | Some sum =>
      Some (if truthy (read countByMonth i)
            then Some (sum / read countByMonth i)%js
            else None)
  end.

Fixpoint map_from {A B : Type} (f : nat -> A -> B) (i : nat) (l : list A)
  : list B :=
  match l with
  | [] => []
  | x :: r => f i x :: map_from f (S i) r
  end.

Definition analyzeSeasonality (seasonality : list SeasonalityData.t)
  : list (option (option number)) :=
  let acc := fold_left accumulate seasonality (mkSums zeros zeros) in
  map_from (average (countByMonth acc)) 0 (avgByMonth acc).

End SeasonalityPattern.


(* ================================================================== *)
(** * The PDF pipeline orchestrator ([utils/pdf-processor.ts]) *)
(* ================================================================== *)

Module PdfProcessor.

(** A thrown value: an [Error] instance with its [message], or anything
    else. *)
Inductive thrown : Type :=
| Error (message : string)
| NonError.

(** What [await pdf(fileBuffer)] does: resolve to a value that may be
    nullish and whose [text] may be missing, or reject. *)
Record PdfData : Type := mkPdfData { text : option string }.

Inductive outcome : Type :=
| Resolves (pdfData : option PdfData)
| Rejects (e : thrown).

(** A key of an object literal: left out, written as [undefined], or given
    a value. *)
Inductive key (A : Type) : Type :=
| Absent
| Undefined
| Present (a : A).

Arguments Absent {A}.
Arguments Undefined {A}.
Arguments Present {A} a.

Record ProcessingResult : Type := mkResult {
  success : bool;
  data : key MLSReport.t;
  error : key string;
  rawText : key string }.

(** What the imported [extractMLSData] does on a text: return a report or
    throw. *)
Definition extractor : Type := string -> MLSReport.t + thrown.

(** The extractor of [utils/mls-validator.ts] embedded above, which returns
    on every text. *)
Definition lineExtractor : extractor :=
  fun text => inl (Extractor.extractMLSData text).

(** The body of the [try] block, after [pdf] resolved. *)
Definition tryBlock (extractMLSData : extractor) (pdfData : option PdfData)
  : ProcessingResult + thrown :=
  match pdfData with
  | Some (mkPdfData (Some (String c r))) =>
      let text := String c r in
      match extractMLSData text with
      | inr e => inr e
      | inl mlsData =>
          match MLSReport.activeListings mlsData,
                MLSReport.closedListings mlsData with
          | [], [] =>
              inl (mkResult false Absent (Present "No listings found in PDF")
                            (Present text))
          | _, _ => inl (mkResult true (Present mlsData) Absent (Present text))
          end
      end
  | _ => inr (Error "Failed to extract text from PDF")
  end.

(** The [catch] block. *)
Definition catchBlock (error : thrown) : ProcessingResult :=
  match error with
  | Error message =>
      if String.eqb message "Empty PDF"
      then mkResult false Absent (Present "Empty PDF") Absent
      else mkResult false Absent (Present message) Undefined
  | NonError =>
      mkResult false Absent (Present "Unknown error during PDF processing")
               Undefined
  end.

(** [processPDF], over the PDF-to-text library and the extractor it
    imports. *)
Definition processPDF {Buffer : Type} (pdf : Buffer -> outcome)
    (extractMLSData : extractor) (fileBuffer : Buffer) : ProcessingResult :=
  match pdf fileBuffer with
  | Rejects e => catchBlock e
  | Resolves pdfData =>
      match tryBlock extractMLSData pdfData with
      | inl r => r
      | inr e => catchBlock e
      end
  end.

End PdfProcessor.

(* ================================================================== *)
(** * The content sniff and the retry loop ([utils/pdf-processor.ts]) *)
(* ================================================================== *)

Module PdfContent.

Import Text PdfProcessor.

(** An optional literal [(?:tok)?] under [/i]. *)
Definition optional_literal (tok s : string) : string :=
  match literal tok s with
  | Some r => r
  | None => s
  end.

(** The character [c] under [/i]. *)
Definition isLetter (c : ascii) (x : ascii) : bool :=
  Ascii.eqb (lower x) (lower c).

(** One character of the class [p] is next. *)
Definition starts (p : ascii -> bool) (s : string) : bool :=
  match s with
  | String c _ => p c
  | EmptyString => false
  end.

(** The tail [\s* : \s* \d+] of the labelled alternatives, as a test. *)
Definition labelled (p : ascii -> bool) (s : string) : bool :=
  match skip isSpace s with
  | String c r => isColon c && starts p (skip isSpace r)
  | EmptyString => false
  end.

(** [MLS \s* (?: # | Number :? \s* ) \d+] *)
Definition mlsIndicator_at (s : string) : bool :=
  match literal "MLS" s with
  | None => false
  | Some r =>
      let r1 := skip isSpace r in
      match r1 with
      | String c r2 =>
          if isHash c then starts isDigit r2
          else
            match literal "Number" r1 with
            | Some r3 => starts isDigit (skip isSpace (optional isColon r3))
            | None => false
            end
      | EmptyString => false
      end
  end.

(** [(?: list (?:ing)? \s* price | price \s* : ) \s* \$? [\d,]+] *)
Definition priceIndicator_at (s : string) : bool :=
  let label :=
    match literal "list" s with
    | Some r => literal "price" (skip isSpace (optional_literal "ing" r))
    | None =>
        match literal "price" s with
        | Some r =>
            match skip isSpace r with
            | String c r' => if isColon c then Some r' else None
            | EmptyString => None
            end
        | None => None
        end
    end in
  match label with
  | Some r => starts Extractor.isDigitOrComma (optional isDollar (skip isSpace r))
  | None => false
  end.

(** [sq (?:uare)? \s* ft] *)
Definition squareFeet (s : string) : option string :=
  match literal "sq" s with
  | Some r => literal "ft" (skip isSpace (optional_literal "uare" r))
  | None => None
  end.

(** [(?: \d [\d,]* \s* (?: sq (?:uare)? \s* ft | sf )
       | sq (?:uare)? \s* ft \s* : \s* [\d,]+ )] *)
Definition sqftIndicator_at (s : string) : bool :=
  (match s with
   | String c r =>
       isDigit c
       && (let r1 := skip isSpace (skip Extractor.isDigitOrComma r) in
           is_some (squareFeet r1) || is_some (literal "sf" r1))
   | EmptyString => false
   end)
  || match squareFeet s with
     | Some r => labelled Extractor.isDigitOrComma r
     | None => false
     end.

(** [(?: \d+ \s* (?: bed (?:room)? s? | br ) | bed (?:room)? s? \s* : \s* \d+ )] *)
Definition bedIndicator_at (s : string) : bool :=
  (let (d, r) := span isDigit s in
   negb (is_empty d)
   && is_some (alternation ["bed"; "br"] (skip isSpace r)))
  || match literal "bed" s with
     | Some r =>
         labelled isDigit (optional (isLetter "s") (optional_literal "room" r))
     | None => false
     end.

(** An optional fraction [(?: \. \d+ )?]. *)
Definition optional_fraction (s : string) : string :=
  match s with
  | String c r =>
      if isDot c && starts isDigit r then skip isDigit r else s
  | EmptyString => s
  end.

(** [(?: \d+ (?: \. \d+ )? \s* (?: bath (?:room)? s? | ba )
       | bath (?:room)? s? \s* : \s* \d+ (?: \. \d+ )? )] *)
Definition bathIndicator_at (s : string) : bool :=
  (let (d, r) := span isDigit s in
   negb (is_empty d)
   && is_some (alternation ["bath"; "ba"] (skip isSpace (optional_fraction r))))
  || match literal "bath" s with
     | Some r =>
         labelled isDigit (optional (isLetter "s") (optional_literal "room" r))
     | None => false
     end.

(** [pattern.test(text)]: the pattern matches at some position. *)
Definition test (pattern_at : string -> bool) (text : string) : bool :=
  is_some (search (fun s => if pattern_at s then Some tt else None) text).

Definition mlsIndicators : list (string -> bool) :=
  [mlsIndicator_at; priceIndicator_at; sqftIndicator_at; bedIndicator_at;
   bathIndicator_at].

Definition validatePDFContent (text : string) : bool :=
  existsb (fun pattern => test pattern text) mlsIndicators.

(** ** The retry loop *)

(** What the call returns, and what it writes to the console. *)
Record Retried : Type := mkRetried {
  returned : option MLSReport.t;
  logged : option thrown }.

(** [data.activeListings.length || data.closedListings.length] *)
Definition hasListings (data : MLSReport.t) : bool :=
  negb (Nat.eqb (List.length (MLSReport.activeListings data)) 0)
  || negb (Nat.eqb (List.length (MLSReport.closedListings data)) 0).

(** [error instanceof Error ? error : new Error('Unknown error')] *)
Definition asError (error : thrown) : thrown :=
  match error with
  | Error message => Error message
  | NonError => Error "Unknown error"
  end.

(** The [while] loop from [attempt] on and the statements after it; [None]
    when [fuel] iterations do not reach the end. *)
Fixpoint attempts (extractMLSData : extractor) (text : string)
    (maxAttempts : number) (fuel attempt : nat) (lastError : option thrown)
  : option Retried :=
  match fuel with
  | O => None
  | S fuel' =>
      if (of_nat attempt <? maxAttempts)%js then
        match extractMLSData text with
        | inl data =>
            if hasListings data then Some (mkRetried (Some data) None)
            else attempts extractMLSData text maxAttempts fuel' (S attempt)
                          lastError
        | inr error =>
            attempts extractMLSData text maxAttempts fuel' (S attempt)
                     (Some (asError error))
        end
      else Some (mkRetried None lastError)
  end.

Definition retryProcessing (extractMLSData : extractor) (text : string)
    (maxAttempts : number) (fuel : nat) : option Retried :=
  if negb (validatePDFContent text) then Some (mkRetried None None)
  else attempts extractMLSData text maxAttempts fuel 0 None.

End PdfContent.


(* ================================================================== *)
(** * The rule groups of the specification, as propositions *)
(* ================================================================== *)

Module Rules.

Import Text.

(** The rational a finite number stands for. *)
Definition val (a : number) : Q :=
  match a with Num x => x | _ => 0 end.

Definition Finite (a : number) : Prop := is_finite a = true.

Definition Within (lo hi : Q) (a : number) : Prop :=
  Finite a /\ lo <= val a /\ val a <= hi.


(** Every two neighbours of a sequence are related. *)
Fixpoint Adjacent {A : Type} (R : A -> A -> Prop) (l : list A) : Prop :=
  match l with
  | a :: r => match r with
              | b :: _ => R a b /\ Adjacent R r
              | [] => True
              end
  | [] => True
  end.


Definition Chronological (history : list PricePoint.t) : Prop :=
  Adjacent (fun a b => String.ltb (PricePoint.date a) (PricePoint.date b) = true)
           history.
















End Rules.

(* ================================================================== *)
(** * Specification-side definitions for the forecast engine *)
(* ================================================================== *)

Module TrendSpec.

Import MarketPredictions.








End TrendSpec.

(* ================================================================== *)
(** * Sample inputs *)
(* ================================================================== *)

Module Samples.

Definition lines (ls : list string) : string :=
  String.concat (String Text.newline EmptyString) ls.

(** A sold price of zero. *)
Definition zeroSoldText : string := lines ["MLS#1"; "Sold Price: $0"].


(** A report of one closed sale and no active listing. *)
Definition closedOnlyText : string :=
  lines ["MLS#67890"; "456 Oak Ave, Frisco"; "List Price: $600,000";
         "Sold Price: $595,000"; "2,000 sqft"].


(** The listing of the statistics scenario: only the three keys it gives. *)
Definition scenarioListing : Property.t :=
  {| Property.mlsNumber := None; Property.address := None;
     Property.city := None; Property.listPrice := Some (Num 500000);
     Property.bedrooms := None; Property.bathrooms := None;
     Property.sqft := Some (Num 2000); Property.yearBuilt := None;
     Property.garage := None; Property.pool := None; Property.acres := None;
     Property.pricePerSqft := Some (Num 250); Property.soldPrice := None;
     Property.soldDate := None; Property.daysOnMarket := None;
     Property.saleToListRatio := None |}.

Definition point (q : Q) : PricePoint.t := PricePoint.mk "2024-01" (Num q) zero.

Definition flatForecast (c1 c2 c3 : Q) : ForecastTriple.t :=
  ForecastTriple.mk (ForecastData.mk zero (Num c1))
                    (ForecastData.mk zero (Num c2))
                    (ForecastData.mk zero (Num c3)).

(** Valid market trends whose confidence grows from the month to the
    quarter. *)
Definition risingConfidence : MarketTrends.t :=
  MarketTrends.mk [] [] (flatForecast (5 # 10) (9 # 10) (6 # 10)).

Definition metric (v : Q) (trend : string) (change : Q) : DemographicMetric.t :=
  DemographicMetric.mk (Num v) trend (Num change).

Definition sampleListing : Property.t :=
  {| Property.mlsNumber := Some "12345";
     Property.address := Some "123 Main St";
     Property.city := Some "Plano";
     Property.listPrice := Some (Num 500000);
     Property.bedrooms := Some (Num 4);
     Property.bathrooms := Some "2/1/0";
     Property.sqft := Some (Num 2500);
     Property.yearBuilt := Some (Num 2010);
     Property.garage := Some "2 Car";
     Property.pool := Some false;
     Property.acres := Some (Num (1 # 4));
     Property.pricePerSqft := Some (Num 200);
     Property.soldPrice := None;
     Property.soldDate := None;
     Property.daysOnMarket := None;
     Property.saleToListRatio := None |}.

Definition sampleStatistics : Statistics.t :=
  {| Statistics.averageDaysOnMarket := Num 25;
     Statistics.medianDaysOnMarket := Num 20;
     Statistics.totalActiveListings := Num 150;
     Statistics.totalClosedSales := Num 45;
     Statistics.averagePrice := Num 485000;
     Statistics.medianPrice := Num 475000;
     Statistics.pricePerSquareFoot := Num 194;
     Statistics.inventoryLevel := Num 185;
     Statistics.daysOfInventory := Num 75;
     Statistics.absorptionRate := Num 30;
     Statistics.newListings := Num 65;
     Statistics.closedListings := Num 45;
     Statistics.pendingListings := Num 35;
     Statistics.canceledListings := Num 5;
     Statistics.averageListPrice := Num 495000;
     Statistics.medianListPrice := Num 485000;
     Statistics.averageSoldPrice := Num 490000;
     Statistics.medianSoldPrice := Num 480000;
     Statistics.listToSoldRatio := Num (98 # 100);
     Statistics.monthsOfSupply := Num 4 |}.

(** A report that meets every rule group. *)
Definition sampleReport : MLSReport.t :=
  {| MLSReport.mlsNumber := "MLS123456";
     MLSReport.listPrice := Num 500000;
     MLSReport.propertyType := "Single Family";
     MLSReport.bedrooms := Num 4;
     MLSReport.bathrooms := Num (5 # 2);
     MLSReport.squareFeet := Num 2500;
     MLSReport.yearBuilt := Num 2010;
     MLSReport.lotSize := Num (1 # 4);
     MLSReport.description := "Beautiful home in prime location";
     MLSReport.address := Address.mk "123 Main St" "Plano" "TX" "75024";
     MLSReport.features := ["Updated Kitchen"; "Pool"];
     MLSReport.photos := ["photo1.jpg"];
     MLSReport.marketTrends :=
       MarketTrends.mk
         [PricePoint.mk "2024-01" (Num 500000) (Num 120);
          PricePoint.mk "2024-02" (Num 505000) (Num 115);
          PricePoint.mk "2024-03" (Num 510000) (Num 125)]
         [SeasonalityData.mk (Num 1) (Num 495000) (Num 100);
          SeasonalityData.mk (Num 2) (Num 500000) (Num 95);
          SeasonalityData.mk (Num 3) (Num 505000) (Num 110)]
         (ForecastTriple.mk
            (ForecastData.mk (Num (12 # 10)) (Num (85 # 100)))
            (ForecastData.mk (Num (35 # 10)) (Num (75 # 100)))
            (ForecastData.mk (Num (8 # 100)) (Num (65 # 100))));
     MLSReport.statistics := sampleStatistics;
     MLSReport.schoolDistrict :=
       SchoolDistrict.mk "Plano ISD" (Num 9)
         (Schools.mk ["Wilson Elementary"] ["Rice Middle School"]
                     ["Plano Senior High"]);
     MLSReport.demographics :=
       Demographics.mk (Num 8500) (Num (71 # 2)) (Num 95000) (Num (96 # 100))
         (EducationLevel.mk (Num (5 # 10)) (Num (35 # 100)) (Num (2 # 10)));
     MLSReport.activeListings := [sampleListing];
     MLSReport.closedListings := [];
     MLSReport.schoolDistricts :=
       [SchoolInfo.mk "Wilson Elementary" (Num 9) "elementary" (Num (5 # 10))
                      (Num 500) (Num 15);
        SchoolInfo.mk "Wilson High" (Num 9) "high" (Num (18 # 10))
                      (Num 1200) (Num 20)];
     MLSReport.demographicAnalysis :=
       DemographicAnalysis.mk
         (metric 8500 "increasing" (25 # 10))
         (metric (71 # 2) "stable" (1 # 10))
         (metric 95000 "increasing" (32 # 10))
         (metric (96 # 100) "stable" 0)
         (EducationLevels.mk (metric (5 # 10) "stable" (1 # 10))
                             (metric (35 # 100) "increasing" (15 # 10))
                             (metric (2 # 10) "increasing" 2)) |}.

End Samples.

(* ================================================================== *)
(** * The properties as the specification words them *)
(* ================================================================== *)

Module Claims.

Import Text.

(** ** Extractor *)

(** The partition invariant, with "sold price is defined" read literally. *)
Definition partition_as_stated : Prop :=
  forall text : string,
    let report := Extractor.extractMLSData text in
    (forall p, In p (Extractor.parse text) ->
       (In p (MLSReport.closedListings report)
        <-> Property.soldPrice p <> None)
       /\ (In p (MLSReport.activeListings report)
           <-> Property.soldPrice p = None))
    /\ Permutation
         (MLSReport.activeListings report ++ MLSReport.closedListings report)
         (Extractor.parse text).




(** ** Statistics *)

Definition minimum (l : list Z) : Z :=
  match l with
  | [] => 0%Z
  | x :: r => fold_left Z.min r x
  end.

Definition maximum (l : list Z) : Z :=
  match l with
  | [] => 0%Z
  | x :: r => fold_left Z.max r x
  end.



Definition Zsum (zs : list Z) : Z := fold_right Z.add 0%Z zs.


(** ** Validator *)

Definition confidence_decay_as_stated : Prop :=
  forall t : MarketTrends.t,
    Validator.validateMarketTrends t = Validator.Ok tt ->
    let f := MarketTrends.forecast t in
    (ForecastData.confidence (ForecastTriple.nextMonth f)
       >=? ForecastData.confidence (ForecastTriple.nextQuarter f))%js = true
    /\ (ForecastData.confidence (ForecastTriple.nextQuarter f)
          >=? ForecastData.confidence (ForecastTriple.nextYear f))%js = true.

(** A confidence the forecast check lets through: a number of [0.5, 1], or
    [NaN], which no comparison rejects. *)
Definition AcceptedConfidence (c : number) : Prop :=
  Rules.Within (5 # 10) 1 c \/ c = NaN.


(** ** Forecast engine *)



(** ** Orchestrator *)

(** What the [try] block of [processPDF] throws, if anything. *)
Definition raised {Buffer : Type} (pdf : Buffer -> PdfProcessor.outcome)
    (extractMLSData : PdfProcessor.extractor) (fileBuffer : Buffer)
  : option PdfProcessor.thrown :=
  match pdf fileBuffer with
  | PdfProcessor.Rejects e => Some e
  | PdfProcessor.Resolves pdfData =>
      match PdfProcessor.tryBlock extractMLSData pdfData with
      | inr e => Some e
      | inl _ => None
      end
  end.

End Claims.

(* ================================================================== *)
(** * Predicates and samples for the properties of the code *)
(* ================================================================== *)

Module Properties.

Import Text.


(** Every character of a string satisfies [p]. *)
Fixpoint all_chars (p : ascii -> bool) (s : string) : bool :=
  match s with
  | EmptyString => true
  | String c r => p c && all_chars p r
  end.

(** The keys the line loop never writes after the MLS-number line set
    them, and the optional keys it never sets. *)
Definition Untouched (p : Property.t) : Prop :=
  Property.city p = Some "Plano"
  /\ Property.yearBuilt p = Some zero
  /\ Property.garage p = Some ""
  /\ Property.pool p = Some false
  /\ Property.acres p = Some zero
  /\ Property.soldDate p = None
  /\ Property.daysOnMarket p = None
  /\ Property.saleToListRatio p = None.



(** A loop state all of whose listings, flushed or pending, satisfy [P]. *)
Definition kept (P : Property.t -> Prop) (st : Extractor.state) : Prop :=
  Forall P (Extractor.properties st)
  /\ (Property.mlsNumber (Extractor.currentProperty st) = None
      \/ P (Extractor.currentProperty st)).



(** What a two-sided range check lets through: a finite number inside the
    range, or [NaN], which fails every comparison. *)
Definition Unrejected (lo hi : Q) (a : number) : Prop :=
  a = NaN \/ Rules.Within lo hi a.

(** The dates of a price history match [YYYY-MM]. *)
Definition DatedHistory (history : list PricePoint.t) : Prop :=
  Forall (fun p => Validator.dateRegex (PricePoint.date p) = true) history.



(** ** Forecast engine *)

(** A number that is not negative: [NaN] and [Infinity] included. *)
Definition NeverNegative (a : number) : Prop :=
  match a with
  | Num q => 0 <= q
  | PosInf | NaN => True
  | NegInf => False
  end.




(** The number a run of decimal digits stands for, read left to right
    from [acc]. *)
Fixpoint readDigits (s : string) (acc : nat) : nat :=
  match s with
  | EmptyString => acc
  | String c r => readDigits r (10 * acc + MarketPredictions.digit c)
  end.

(** The month as [isoMonth] prints it: two digits that read back as the
    month number. *)
Definition monthPrinted (m : nat) : bool :=
  match MarketPredictions.pad 2 (Validator.show (S m)) with
  | String f (String g EmptyString) =>
      Text.isDigit f && Text.isDigit g
      && Nat.eqb (10 * MarketPredictions.digit f + MarketPredictions.digit g) (S m)
  | _ => false
  end.

(** ** Seasonality pattern *)

(** The entries that fall on slot [i], in their order. *)
Definition dataOf (i : nat) (seasonality : list SeasonalityData.t)
  : list SeasonalityData.t :=
  filter (fun d =>
            match SeasonalityPattern.arrayIndex
                    (SeasonalityData.month d - one)%js with
            | Some k => Nat.eqb k i
            | None => false
            end)
         seasonality.

(** The prices of some entries added to [start], left to right. *)
Definition total (data : list SeasonalityData.t) (start : number) : number :=
  fold_left (fun acc d => (acc + SeasonalityData.averagePrice d)%js) data start.

(** One added to [start] for every entry. *)
Definition tally (data : list SeasonalityData.t) (start : number) : number :=
  fold_left (fun acc _ => (acc + one)%js) data start.

(** Slot [i] of both accumulators holds a number. *)
Definition Slot (i : nat) (acc : SeasonalityPattern.sums) (a c : number) : Prop :=
  nth_error (SeasonalityPattern.avgByMonth acc) i = Some (Some a)
  /\ nth_error (SeasonalityPattern.countByMonth acc) i = Some (Some c).

(** ** Retry loop *)

(** What one pass through the loop body leaves behind when the loop ends
    after it: the report if it has listings, or the error for the console. *)
Definition once (extractMLSData : PdfProcessor.extractor) (text : string)
  : PdfContent.Retried :=
  match extractMLSData text with
  | inl data =>
      PdfContent.mkRetried
        (if PdfContent.hasListings data then Some data else None) None
  | inr error =>
      PdfContent.mkRetried None (Some (PdfContent.asError error))
  end.

(** A header line that gives the number without the hash sign. *)
Definition plainHeader (ds : string) : string := ("MLS " ++ ds)%string.

(** A PDF library that resolves to the given text. *)
Definition reads (text : string) : unit -> PdfProcessor.outcome :=
  fun _ => PdfProcessor.Resolves (Some (PdfProcessor.mkPdfData (Some text))).

End Properties.


(* ================================================================== *)
(** * Facts about rationals and numbers *)
(* ================================================================== *)

Module NumberFacts.

Lemma Qlt_bool_true : forall x y, x < y -> Qlt_bool x y = true.
Proof.
  intros x y H. unfold Qlt_bool.
  destruct (Qle_bool y x) eqn:E; [|reflexivity].
  apply Qle_bool_iff in E. lra.
Qed.

Lemma Qlt_bool_false : forall x y, y <= x -> Qlt_bool x y = false.
Proof.
  intros x y H. unfold Qlt_bool.
  apply Qle_bool_iff in H. now rewrite H.
Qed.

Lemma Qlt_bool_inv : forall x y, Qlt_bool x y = true -> x < y.
Proof.
  intros x y H. unfold Qlt_bool in H.
  destruct (Qle_bool y x) eqn:E; [discriminate|].
  apply Qnot_le_lt. intros Hle. apply Qle_bool_iff in Hle. congruence.
Qed.

(** Rounding keeps a value between two integers that bound it. *)
Lemma Qfloor_half_integer : forall z : Z, Qfloor (inject_Z z + (1 # 2)) = z.
Proof.
  intros z.
  pose proof (Qfloor_le (inject_Z z + (1 # 2))) as Hle.
  pose proof (Qlt_floor (inject_Z z + (1 # 2))) as Hlt.
  set (f := Qfloor (inject_Z z + (1 # 2))) in *. clearbody f.
  rewrite inject_Z_plus in Hlt. change (inject_Z 1) with 1 in Hlt.
  assert (H1 : inject_Z f < inject_Z (z + 1)).
  { rewrite inject_Z_plus. change (inject_Z 1) with 1. lra. }
  assert (H2 : inject_Z z < inject_Z (f + 1)).
  { rewrite inject_Z_plus. change (inject_Z 1) with 1. lra. }
  rewrite <- Zlt_Qlt in H1, H2. lia.
Qed.

Lemma round_between : forall (lo hi : Z) (q : Q),
  inject_Z lo <= q -> q <= inject_Z hi ->
  (lo <= Qfloor (q + (1 # 2)) <= hi)%Z.
Proof.
  intros lo hi q Hlo Hhi.
  split.
  - rewrite <- (Qfloor_half_integer lo). apply Qfloor_resp_le. lra.
  - rewrite <- (Qfloor_half_integer hi). apply Qfloor_resp_le. lra.
Qed.

Lemma div_by_positive : forall (q : Q) (n : Z),
  (0 < n)%Z -> (Num q / of_Z n)%js = Num (q / inject_Z n).
Proof.
  intros q n Hn. unfold JS.div, of_Z, Qis_zero.
  destruct (Qeq_bool (inject_Z n) 0) eqn:E; [|reflexivity].
  apply Qeq_bool_eq in E.
  assert (inject_Z 0 < inject_Z n) by (rewrite <- Zlt_Qlt; exact Hn).
  change (inject_Z 0) with 0 in *. lra.
Qed.




End NumberFacts.

(* ================================================================== *)
(** * The extractor and the statistics block: proofs *)
(* ================================================================== *)

Module ExtractorFacts.

Import Text Extractor Claims Samples NumberFacts.

(** ** Partition *)

Lemma separate_acc : forall ps active closed,
  fold_left
    (fun (acc : list Property.t * list Property.t) p =>
       let (active, closed) := acc in
       if sold p then (active, closed ++ [p]) else (active ++ [p], closed))
    ps (active, closed)
  = (active ++ filter (fun p => negb (sold p)) ps, closed ++ filter sold ps).
Proof.
  induction ps as [|p ps IH]; intros active closed; simpl.
  - now rewrite !app_nil_r.
  - destruct (sold p); simpl; rewrite IH, <- app_assoc; reflexivity.
Qed.

Lemma separate_filter : forall ps,
  separate ps = (filter (fun p => negb (sold p)) ps, filter sold ps).
Proof. intros ps. unfold separate. now rewrite separate_acc. Qed.

Lemma filter_split_Permutation : forall (A : Type) (f : A -> bool) (l : list A),
  Permutation (filter (fun x => negb (f x)) l ++ filter f l) l.
Proof.
  induction l as [|x l IH]; simpl.
  - constructor.
  - destruct (f x); simpl.
    + symmetry. apply Permutation_cons_app. now symmetry.
    + now constructor.
Qed.

Lemma report_active : forall ps,
  MLSReport.activeListings (report_of ps) = filter (fun p => negb (sold p)) ps.
Proof. intros ps. unfold report_of. now rewrite separate_filter. Qed.

Lemma report_closed : forall ps,
  MLSReport.closedListings (report_of ps) = filter sold ps.
Proof. intros ps. unfold report_of. now rewrite separate_filter. Qed.

(** C6, counterexample: a listing whose sold price is the number 0 has its
    [soldPrice] defined and is filed under the active listings. *)
Lemma partition_fails : ~ partition_as_stated.
Proof.
  intros H.
  pose (p := set_soldPrice (fresh "1") (Num 0)).
  destruct (H zeroSoldText) as [Hiff _].
  assert (Hparse : parse zeroSoldText = [p]) by (vm_compute; reflexivity).
  assert (Hclosed : MLSReport.closedListings (extractMLSData zeroSoldText) = [])
    by (vm_compute; reflexivity).
  rewrite Hparse, Hclosed in Hiff.
  destruct (Hiff p (or_introl eq_refl)) as [[_ Hback] _].
  apply Hback. discriminate.
Qed.

(** C6, amended: for every input text, a parsed listing is in
    [closedListings] exactly when its [soldPrice] is truthy (defined, not 0
    and not NaN) and in [activeListings] otherwise, and the two buckets
    together are a permutation of the parsed sequence. *)
Theorem partition_by_truthy_soldPrice : forall text : string,
  let report := extractMLSData text in
  (forall p, In p (MLSReport.closedListings report)
             <-> In p (parse text) /\ truthy_opt (Property.soldPrice p) = true)
  /\ (forall p, In p (MLSReport.activeListings report)
                <-> In p (parse text) /\ truthy_opt (Property.soldPrice p) = false)
  /\ Permutation
       (MLSReport.activeListings report ++ MLSReport.closedListings report)
       (parse text).
Proof.
  intros text report. subst report. unfold extractMLSData.
  rewrite report_active, report_closed.
  split; [|split].
  - intros p. apply filter_In.
  - intros p. rewrite filter_In. unfold sold.
    now rewrite negb_true_iff.
  - apply filter_split_Permutation.
Qed.

(** ** Lines ahead of the first MLS-number line *)

Lemma mlsMatch_empty : mlsMatch EmptyString = None.
Proof. reflexivity. Qed.

Lemma on_sqft_mlsNumber : forall cur capture,
  Property.mlsNumber (on_sqft cur capture) = Property.mlsNumber cur.
Proof.
  intros cur capture. unfold on_sqft. simpl.
  destruct (Property.listPrice cur) as [lp|]; [destruct (truthy lp)|]; reflexivity.
Qed.




Lemma step_mls_line : forall st line m,
  mlsMatch (trim line) = Some m ->
  step st line
  = mkState (flush st) (fresh (remove (fun c => isDash c || isSpace c) m)).
Proof.
  intros st line m Hm. unfold step.
  destruct (trim line) eqn:Ht.
  - rewrite mlsMatch_empty in Hm. discriminate.
  - simpl is_empty. cbv iota. rewrite Hm. reflexivity.
Qed.






Lemma filter_Forall : forall (A : Type) (P : A -> Prop) (f : A -> bool) l,
  Forall P l -> Forall P (filter f l).
Proof.
  intros A P f l H. rewrite Forall_forall in *.
  intros x Hx. apply filter_In in Hx. now apply H.
Qed.



(** ** Median and average *)


Lemma fold_min_le_init : forall l x, (fold_left Z.min l x <= x)%Z.
Proof.
  induction l as [|y l IH]; intros x; simpl; [lia|].
  specialize (IH (Z.min x y)). lia.
Qed.

Lemma fold_min_le_In : forall l x y, In y l -> (fold_left Z.min l x <= y)%Z.
Proof.
  induction l as [|z l IH]; intros x y Hy; simpl; [contradiction|].
  destruct Hy as [-> | Hy].
  - pose proof (fold_min_le_init l (Z.min x y)). lia.
  - now apply IH.
Qed.

Lemma fold_max_ge_init : forall l x, (x <= fold_left Z.max l x)%Z.
Proof.
  induction l as [|y l IH]; intros x; simpl; [lia|].
  specialize (IH (Z.max x y)). lia.
Qed.

Lemma fold_max_ge_In : forall l x y, In y l -> (y <= fold_left Z.max l x)%Z.
Proof.
  induction l as [|z l IH]; intros x y Hy; simpl; [contradiction|].
  destruct Hy as [-> | Hy].
  - pose proof (fold_max_ge_init l (Z.max x y)). lia.
  - now apply IH.
Qed.

Lemma minimum_maximum_bound : forall zs z,
  In z zs -> (minimum zs <= z <= maximum zs)%Z.
Proof.
  intros [|x r] z Hz; [contradiction|]. simpl.
  destruct Hz as [-> | Hz].
  - split; [apply fold_min_le_init | apply fold_max_ge_init].
  - split; [now apply fold_min_le_In | now apply fold_max_ge_In].
Qed.

Lemma sum_integers_from : forall zs q,
  exists q', fold_left JS.add (map of_Z zs) (Num q) = Num q'
             /\ q' == q + inject_Z (Zsum zs).
Proof.
  induction zs as [|z zs IH]; intros q.
  - exists q. split; [reflexivity|]. change (inject_Z (Zsum [])) with 0. lra.
  - destruct (IH (q + inject_Z z)) as (q' & Hq' & Heq).
    exists q'. split; [exact Hq'|].
    change (Zsum (z :: zs)) with (z + Zsum zs)%Z.
    rewrite Heq, inject_Z_plus. lra.
Qed.

Lemma sum_integers : forall zs,
  exists q, sum (map of_Z zs) = Num q /\ q == inject_Z (Zsum zs).
Proof.
  intros zs. destruct (sum_integers_from zs 0) as (q & Hq & Heq).
  exists q. split; [exact Hq|]. rewrite Heq. lra.
Qed.

Lemma Zsum_between : forall (lo hi : Z) zs,
  (forall z, In z zs -> (lo <= z <= hi)%Z) ->
  (lo * Z.of_nat (List.length zs) <= Zsum zs <= hi * Z.of_nat (List.length zs))%Z.
Proof.
  intros lo hi zs. induction zs as [|z zs IH]; intros H.
  - simpl. lia.
  - assert (Hz : (lo <= z <= hi)%Z) by (apply H; now left).
    assert (Hr : forall y, In y zs -> (lo <= y <= hi)%Z)
      by (intros y Hy; apply H; now right).
    specialize (IH Hr). cbn [Zsum fold_right List.length] in *.
    rewrite Nat2Z.inj_succ. fold (Zsum zs). nia.
Qed.

Lemma mean_between : forall (lo hi s n : Z) (q : Q),
  (0 < n)%Z -> q == inject_Z s ->
  (lo * n <= s <= hi * n)%Z ->
  inject_Z lo <= q / inject_Z n /\ q / inject_Z n <= inject_Z hi.
Proof.
  intros lo hi s n q Hn Hq [Hlo Hhi].
  assert (Hn' : 0 < inject_Z n).
  { change 0 with (inject_Z 0). now rewrite <- Zlt_Qlt. }
  rewrite Zle_Qle, inject_Z_mult in Hlo, Hhi.
  split.
  - apply Qle_shift_div_l; [exact Hn'|]. rewrite Hq. exact Hlo.
  - apply Qle_shift_div_r; [exact Hn'|]. rewrite Hq. exact Hhi.
Qed.

Lemma calculateAverage_value : forall prices, prices <> [] ->
  Traced.value (calculateAverage prices)
  = Math_round (sum prices / of_nat (List.length prices))%js.
Proof. intros [|x r] H; [contradiction|reflexivity]. Qed.

Lemma map_nonempty : forall (A B : Type) (f : A -> B) l,
  l <> [] -> map f l <> [].
Proof. intros A B f [|x r] H; [contradiction|discriminate]. Qed.

Lemma average_of_integers : forall zs, zs <> [] ->
  exists a : Z,
    Traced.value (calculateAverage (map of_Z zs)) = of_Z a
    /\ (minimum zs <= a <= maximum zs)%Z.
Proof.
  intros zs Hne.
  destruct (sum_integers zs) as (q & Hsum & Hq).
  assert (Hn : (0 < Z.of_nat (List.length zs))%Z)
    by (destruct zs; [contradiction|simpl; lia]).
  exists (Qfloor (q / inject_Z (Z.of_nat (List.length zs)) + (1 # 2))).
  split.
  - rewrite (calculateAverage_value (map_nonempty of_Z Hne)).
    rewrite Hsum, length_map. unfold of_nat.
    rewrite (div_by_positive q Hn). reflexivity.
  - pose proof (@Zsum_between (minimum zs) (maximum zs) zs
                  (fun z Hz => @minimum_maximum_bound zs z Hz)) as Hb.
    destruct (@mean_between _ _ _ _ q Hn Hq Hb) as [Hlo Hhi].
    now apply round_between.
Qed.

Lemma insert_In : forall x a l, In x (insert a l) <-> x = a \/ In x l.
Proof.
  intros x a l. induction l as [|y l IH]; cbn [insert In].
  - split; intros [H | H]; subst; auto.
  - destruct (compareFn a y >? zero)%js; cbn [In]; rewrite ?IH;
      split; intros H; repeat destruct H as [H | H]; subst; auto.
Qed.

Lemma sort_In : forall x l, In x (sort l) <-> In x l.
Proof.
  intros x l. induction l as [|y l IH]; cbn [sort fold_right In]; [tauto|].
  fold (sort l). rewrite insert_In, IH. split; intros [H | H]; subst; auto.
Qed.

Lemma insert_length : forall a l, List.length (insert a l) = S (List.length l).
Proof.
  intros a l. induction l as [|y l IH]; cbn [insert]; [reflexivity|].
  destruct (compareFn a y >? zero)%js; cbn [List.length]; now rewrite ?IH.
Qed.

Lemma sort_length : forall l, List.length (sort l) = List.length l.
Proof.
  induction l as [|y l IH]; cbn [sort fold_right]; [reflexivity|].
  fold (sort l). now rewrite insert_length, IH.
Qed.

Lemma calculateMedian_value : forall prices, prices <> [] ->
  Traced.value (calculateMedian prices)
  = let sorted := sort prices in
    let mid := Math_floor (of_nat (List.length sorted) / Num 2)%js in
    if Nat.eqb (Nat.modulo (List.length sorted) 2) 0
    then Math_round ((to_number (index sorted (mid - one)%js)
                      + to_number (index sorted mid)) / Num 2)%js
    else to_number (index sorted mid).
Proof.
  intros [|x r] H; [contradiction|].
  unfold calculateMedian, Traced.bind, Traced.divide, Traced.ret, Traced.value.
  cbv zeta.
  destruct (Nat.eqb (Nat.modulo (List.length (sort (x :: r))) 2) 0); reflexivity.
Qed.

Lemma half_length : forall n : nat,
  Math_floor (of_nat n / Num 2)%js = of_Z (Z.of_nat n / 2).
Proof.
  intros n.
  change (of_nat n / Num 2)%js with (Num (inject_Z (Z.of_nat n)) / of_Z 2)%js.
  rewrite div_by_positive by lia.
  unfold Math_floor. f_equal. symmetry. apply Zdiv_Qdiv.
Qed.

Lemma index_integer : forall l (x : Q) (k : Z),
  x == inject_Z k -> (0 <= k)%Z ->
  index l (Num x) = nth_error l (Z.to_nat k).
Proof.
  intros l x k Hx Hk. unfold index.
  assert (Hf : Qfloor x = k) by (rewrite Hx; apply Qfloor_Z).
  rewrite Hf.
  assert (E1 : Qeq_bool x (inject_Z k) = true) by (now apply Qeq_eq_bool).
  assert (E2 : Qle_bool 0 x = true).
  { apply Qle_bool_iff. rewrite Hx. change 0 with (inject_Z 0).
    now rewrite <- Zle_Qle. }
  now rewrite E1, E2.
Qed.

Lemma nth_error_of_integers : forall zs sorted i,
  (forall x, In x sorted -> In x (map of_Z zs)) ->
  (i < List.length sorted)%nat ->
  exists z, nth_error sorted i = Some (of_Z z) /\ In z zs.
Proof.
  intros zs sorted i Hin Hi.
  destruct (nth_error sorted i) as [x|] eqn:E.
  - apply nth_error_In in E. apply Hin in E.
    apply in_map_iff in E. destruct E as (z & <- & Hz).
    now exists z.
  - apply nth_error_None in E. lia.
Qed.

Lemma median_of_integers : forall zs, zs <> [] ->
  exists m : Z,
    Traced.value (calculateMedian (map of_Z zs)) = of_Z m
    /\ (minimum zs <= m <= maximum zs)%Z.
Proof.
  intros zs Hne.
  assert (Hpos : (0 < List.length zs)%nat)
    by (destruct zs; [contradiction|simpl; lia]).
  rewrite (calculateMedian_value (map_nonempty of_Z Hne)). cbv zeta.
  set (sorted := sort (map of_Z zs)).
  assert (Hlen : List.length sorted = List.length zs)
    by (unfold sorted; now rewrite sort_length, length_map).
  assert (Hin : forall x, In x sorted -> In x (map of_Z zs))
    by (intros x Hx; apply (proj1 (sort_In x (map of_Z zs))); exact Hx).
  rewrite half_length, Hlen.
  set (n := List.length zs) in *. clearbody n.
  assert (Hk : (0 <= Z.of_nat n / 2)%Z) by (apply Z.div_pos; lia).
  assert (Hmid : (Z.to_nat (Z.of_nat n / 2) < List.length sorted)%nat).
  { rewrite Hlen. apply Nat2Z.inj_lt. rewrite Z2Nat.id by exact Hk.
    apply Z.div_lt; lia. }
  destruct (nth_error_of_integers zs sorted Hin Hmid) as (zb & Eb & Hb).
  assert (Imid : index sorted (of_Z (Z.of_nat n / 2)) = Some (of_Z zb)).
  { unfold of_Z at 1.
    rewrite (@index_integer sorted _ (Z.of_nat n / 2)); [exact Eb | reflexivity | exact Hk]. }
  rewrite Imid. cbn [to_number].
  destruct (Nat.eqb (Nat.modulo n 2) 0) eqn:Heven.
  - apply Nat.eqb_eq in Heven.
    assert (Hn2 : (2 <= n)%nat).
    { destruct n as [|[|n']]; [lia|simpl in Heven; discriminate|lia]. }
    assert (Hk1 : (0 <= Z.of_nat n / 2 - 1)%Z).
    { assert (1 <= Z.of_nat n / 2)%Z; [|lia].
      apply Z.div_le_lower_bound; lia. }
    assert (Hprev : (Z.to_nat (Z.of_nat n / 2 - 1) < List.length sorted)%nat) by lia.
    destruct (nth_error_of_integers zs sorted Hin Hprev) as (za & Ea & Ha).
    assert (Iprev : index sorted (of_Z (Z.of_nat n / 2) - one)%js = Some (of_Z za)).
    { change (of_Z (Z.of_nat n / 2) - one)%js
        with (Num (inject_Z (Z.of_nat n / 2) + - 1)).
      rewrite (@index_integer sorted _ (Z.of_nat n / 2 - 1)); [exact Ea | | exact Hk1].
      unfold Z.sub. rewrite inject_Z_plus. reflexivity. }
    rewrite Iprev. cbn [to_number].
    change (of_Z za + of_Z zb)%js with (Num (inject_Z za + inject_Z zb)).
    change (Num 2) with (of_Z 2).
    rewrite div_by_positive by lia.
    exists (Qfloor ((inject_Z za + inject_Z zb) / inject_Z 2 + (1 # 2))).
    split; [reflexivity|].
    pose proof (@minimum_maximum_bound zs za Ha) as [La Ua].
    pose proof (@minimum_maximum_bound zs zb Hb) as [Lb Ub].
    rewrite Zle_Qle in La, Ua, Lb, Ub.
    apply round_between; change (inject_Z 2) with 2.
    + apply Qle_shift_div_l; lra.
    + apply Qle_shift_div_r; lra.
  - exists zb. split; [reflexivity|]. now apply minimum_maximum_bound.
Qed.



(** ** Scenarios *)

(** C8: the statistics of one active listing with list price 500000 and no
    closed listing. *)
Theorem statistics_of_single_active_listing :
  let s := statisticsOf [scenarioListing] [] in
  Statistics.averageListPrice s = Num 500000
  /\ Statistics.medianListPrice s = Num 500000
  /\ Statistics.averageSoldPrice s = Num 0
  /\ Statistics.absorptionRate s = Num 0
  /\ Statistics.monthsOfSupply s = Num 1.
Proof. vm_compute. repeat split; reflexivity. Qed.

(** C5, the code at the failing input: a report with one closed sale and no
    active listing divides the average sold price by an average list price
    of 0, and [listToSoldRatio] is [Infinity]. *)
Theorem listToSoldRatio_divides_by_zero :
  let report := extractMLSData closedOnlyText in
  let run := synthesize (MLSReport.activeListings report)
                        (MLSReport.closedListings report) in
  MLSReport.activeListings report = []
  /\ List.length (MLSReport.closedListings report) = 1%nat
  /\ In (Num 0) (Traced.divisors run)
  /\ Statistics.averageSoldPrice (Traced.value run) = Num 595000
  /\ Statistics.averageListPrice (Traced.value run) = Num 0
  /\ Statistics.listToSoldRatio (Traced.value run) = PosInf
  /\ Statistics.listToSoldRatio (MLSReport.statistics report) = PosInf.
Proof.
  vm_compute. repeat split; try reflexivity.
  do 9 right. left. reflexivity.
Qed.
End ExtractorFacts.

(* ================================================================== *)
(** * The assertion-style validator: proofs *)
(* ================================================================== *)

Module ValidatorFacts.

Import Text Validator Rules Claims Samples NumberFacts.

(** ** Comparisons of finite numbers *)

Lemma finite_num : forall a, Finite a -> a = Num (val a).
Proof. intros [x| | |] H; try discriminate H; reflexivity. Qed.

Lemma lt_false : forall a b,
  Finite a -> Finite b -> val b <= val a -> (a <? b)%js = false.
Proof.
  intros a b Ha Hb H. rewrite (finite_num Ha), (finite_num Hb).
  now apply Qlt_bool_false.
Qed.

Lemma gt_false : forall a b,
  Finite a -> Finite b -> val a <= val b -> (a >? b)%js = false.
Proof. intros a b Ha Hb H. unfold gt. now apply lt_false. Qed.




Lemma finite_const : forall q, Finite (Num q).
Proof. reflexivity. Qed.

(** ** Statements that return *)


Lemma seq_inv : forall a b, (a >> b) = Ok tt -> a = Ok tt /\ b = Ok tt.
Proof.
  intros [[]|e] b H; simpl in H; [now split | discriminate].
Qed.


Lemma guard_inv : forall c msg fld, guard c msg fld = Ok tt -> c = false.
Proof. intros [|] msg fld H; [discriminate | reflexivity]. Qed.






(** ** Arithmetic behind the thresholds *)




Lemma within_bounds : forall lo hi a,
  Within lo hi a -> ((a <? Num lo) || (a >? Num hi))%js = false.
Proof.
  intros lo hi a (Hf & Hlo & Hhi).
  rewrite (lt_false Hf (finite_const lo)) by exact Hlo.
  rewrite (gt_false Hf (finite_const hi)) by exact Hhi.
  reflexivity.
Qed.

Lemma member_In : forall s l, In s l -> member s l = true.
Proof.
  intros s l H. unfold member. apply existsb_exists.
  exists s. split; [exact H | apply String.eqb_refl].
Qed.




(** ** Each rule group is enough for its validator to return *)
















(** ** Forecast confidence *)

(** C1, counterexample: trends with confidences 0.5, 0.9, 0.6 pass
    [validateMarketTrends], and the month's confidence is below the
    quarter's. *)
Lemma confidence_decay_fails : ~ confidence_decay_as_stated.
Proof.
  intros H.
  destruct (H risingConfidence eq_refl) as [Hmq _].
  vm_compute in Hmq. discriminate.
Qed.

Lemma accepted_confidence : forall c,
  ((c <? THRESHOLDS.MIN_CONFIDENCE) || (c >? THRESHOLDS.MAX_CONFIDENCE))%js
    = false ->
  AcceptedConfidence c.
Proof.
  intros c H. apply orb_false_iff in H. destruct H as [Hlo Hhi].
  destruct c as [x| | |]; try discriminate; [left | now right].
  split; [reflexivity|]. cbn [val]. split.
  - unfold lt, THRESHOLDS.MIN_CONFIDENCE, Qlt_bool in Hlo.
    apply negb_false_iff in Hlo. now apply Qle_bool_iff.
  - unfold gt, lt, THRESHOLDS.MAX_CONFIDENCE, Qlt_bool in Hhi.
    apply negb_false_iff in Hhi. now apply Qle_bool_iff.
Qed.

(** C1, amended: when [validateMarketTrends] returns, each of the three
    forecast confidences is a number of [0.5, 1.0] (or NaN); no order
    between the horizons follows. *)
Theorem valid_trends_confidence_in_range : forall t : MarketTrends.t,
  validateMarketTrends t = Ok tt ->
  let f := MarketTrends.forecast t in
  AcceptedConfidence (ForecastData.confidence (ForecastTriple.nextMonth f))
  /\ AcceptedConfidence (ForecastData.confidence (ForecastTriple.nextQuarter f))
  /\ AcceptedConfidence (ForecastData.confidence (ForecastTriple.nextYear f)).
Proof.
  intros t H f. unfold validateMarketTrends in H.
  apply seq_inv in H. destruct H as [_ H].
  apply seq_inv in H. destruct H as [_ H].
  unfold forEach, forecastEntries in H. cbn [forEach_from] in H. fold f in H.
  apply seq_inv in H. destruct H as [Hm H].
  apply seq_inv in H. destruct H as [Hq H].
  apply seq_inv in H. destruct H as [Hy _].
  apply seq_inv in Hm. destruct Hm as [Hm _].
  apply seq_inv in Hq. destruct Hq as [Hq _].
  apply seq_inv in Hy. destruct Hy as [Hy _].
  apply guard_inv in Hm, Hq, Hy.
  repeat split; now apply accepted_confidence.
Qed.

(** C1, witness. *)
Lemma valid_trends_confidence_witness :
  let f := MarketTrends.forecast risingConfidence in
  AcceptedConfidence (ForecastData.confidence (ForecastTriple.nextMonth f))
  /\ AcceptedConfidence (ForecastData.confidence (ForecastTriple.nextQuarter f))
  /\ AcceptedConfidence (ForecastData.confidence (ForecastTriple.nextYear f)).
Proof.
  exact (@valid_trends_confidence_in_range risingConfidence eq_refl).
Defined.

(** ** The whole report *)






End ValidatorFacts.

(* ================================================================== *)
(** * The forecast engine: proofs *)
(* ================================================================== *)

Module ForecastFacts.

Import MarketPredictions TrendSpec Claims Samples NumberFacts.

(** ** Predictions *)






(** ** Trend strength *)










End ForecastFacts.

(* ================================================================== *)
(** * The orchestrator: proofs *)
(* ================================================================== *)

Module PdfProcessorFacts.

Import PdfProcessor Claims.

(** C9: whenever the conversion throws, [processPDF] returns a failure
    result; an [Error] whose message is exactly "Empty PDF" gives that
    message with no [rawText], any other [Error] gives its message, and a
    thrown value that is not an [Error] gives the generic message. *)
Theorem processPDF_turns_exceptions_into_failures :
  forall (Buffer : Type) (pdf : Buffer -> outcome)
         (extractMLSData : extractor) (fileBuffer : Buffer) (e : thrown),
    raised pdf extractMLSData fileBuffer = Some e ->
    let r := processPDF pdf extractMLSData fileBuffer in
    success r = false
    /\ data r = Absent
    /\ match e with
       | Error message =>
           error r = Present message
           /\ (message = "Empty PDF" -> rawText r = Absent)
           /\ (message <> "Empty PDF" -> rawText r = Undefined)
       | NonError =>
           error r = Present "Unknown error during PDF processing"
           /\ rawText r = Undefined
       end.
Proof.
  intros Buffer pdf extractMLSData fileBuffer e Hraised r. subst r.
  assert (Hr : processPDF pdf extractMLSData fileBuffer = catchBlock e).
  { unfold processPDF, raised in *.
    destruct (pdf fileBuffer) as [pdfData | e'].
    - destruct (tryBlock extractMLSData pdfData) as [r | e']; [discriminate|].
      now injection Hraised as ->.
    - now injection Hraised as ->. }
  rewrite Hr. destruct e as [message|]; simpl.
  - destruct (String.eqb message "Empty PDF") eqn:E; simpl.
    + apply String.eqb_eq in E. subst message. repeat split; congruence.
    + apply String.eqb_neq in E. repeat split; congruence.
  - repeat split.
Qed.

(** C9, witness. *)
Lemma processPDF_empty_pdf_witness :
  let r := processPDF (fun _ : unit => Rejects (Error "Empty PDF"))
                      lineExtractor tt in
  success r = false
  /\ data r = Absent
  /\ error r = Present "Empty PDF"
     /\ ("Empty PDF" = "Empty PDF" -> rawText r = Absent)
     /\ ("Empty PDF" <> "Empty PDF" -> rawText r = Undefined).
Proof.
  exact (@processPDF_turns_exceptions_into_failures unit
           (fun _ => Rejects (Error "Empty PDF")) lineExtractor tt
           (Error "Empty PDF") eq_refl).
Defined.

End PdfProcessorFacts.

(* ================================================================== *)
(** * Comparisons *)
(* ================================================================== *)

Module ComparisonFacts.
Import NumberFacts.

Lemma Qlt_bool_false_inv : forall x y, Qlt_bool x y = false -> y <= x.
Proof.
  intros x y H. unfold Qlt_bool in H. apply negb_false_iff in H.
  now apply Qle_bool_iff.
Qed.

End ComparisonFacts.

(* ================================================================== *)
(** * Strings *)
(* ================================================================== *)

Module TextFacts.
Import Text Properties.

Lemma search_found : forall (A : Type) (f : string -> option A) s a,
  search f s = Some a -> exists suffix, f suffix = Some a.
Proof.
  intros A f s. induction s as [|c s IH]; intros a H; cbn [search] in H.
  - destruct (f EmptyString) eqn:E; [|discriminate].
    injection H as <-. now exists EmptyString.
  - destruct (f (String c s)) eqn:E.
    + injection H as <-. now exists (String c s).
    + now apply IH.
Qed.

Lemma span_all : forall p s, all_chars p (fst (span p s)) = true.
Proof.
  intros p s. induction s as [|c s IH]; cbn [span]; [reflexivity|].
  destruct (p c) eqn:E; [|reflexivity].
  destruct (span p s) as [a b]. cbn [fst all_chars] in *.
  now rewrite E, IH.
Qed.

Lemma all_chars_app : forall p a b,
  all_chars p (a ++ b)%string = all_chars p a && all_chars p b.
Proof.
  intros p a b. induction a as [|c a IH]; cbn [append all_chars]; [reflexivity|].
  now rewrite IH, andb_assoc.
Qed.

Lemma remove_app : forall p a b,
  remove p (a ++ b)%string = (remove p a ++ remove p b)%string.
Proof.
  intros p a b. induction a as [|c a IH]; cbn [append remove]; [reflexivity|].
  destruct (p c); cbn [append]; now rewrite IH.
Qed.

Lemma remove_all : forall p s, all_chars p s = true -> remove p s = EmptyString.
Proof.
  intros p s. induction s as [|c s IH]; cbn [all_chars remove]; [reflexivity|].
  intros H. apply andb_true_iff in H. destruct H as [Hc Hs].
  rewrite Hc. now apply IH.
Qed.

Lemma remove_none : forall p q s,
  (forall c, q c = true -> p c = false) ->
  all_chars q s = true -> remove p s = s.
Proof.
  intros p q s Hpq. induction s as [|c s IH]; cbn [all_chars remove]; [reflexivity|].
  intros H. apply andb_true_iff in H. destruct H as [Hc Hs].
  rewrite (Hpq c Hc). now rewrite IH.
Qed.

Lemma digit_is_no_separator : forall c,
  isDigit c = true -> isDash c || isSpace c = false.
Proof.
  intros c. destruct c as [b0 b1 b2 b3 b4 b5 b6 b7].
  destruct b0, b1, b2, b3, b4, b5, b6, b7; vm_compute; congruence.
Qed.

End TextFacts.

(* ================================================================== *)
(** * What the recognizers capture *)
(* ================================================================== *)

Module CaptureFacts.
Import Text Extractor Properties NumberFacts ComparisonFacts TextFacts ExtractorFacts.

Lemma span_of_all : forall p s, all_chars p s = true -> span p s = (s, EmptyString).
Proof.
  intros p s. induction s as [|c r IH]; intros H; [reflexivity|].
  cbn [all_chars] in H. apply andb_true_iff in H. destruct H as [Hc Hr].
  cbn [span]. now rewrite Hc, (IH Hr).
Qed.



Lemma digit_is_no_sign : forall c,
  isDigit c = true -> isSpace c = false /\ isDash c = false /\ isPlus c = false.
Proof.
  intros c H.
  destruct c as [[|] [|] [|] [|] [|] [|] [|] [|]];
    solve [discriminate H | repeat split; reflexivity].
Qed.



(** ** What the recognizers capture *)

Lemma priceMatch_chars : forall line p,
  priceMatch line = Some p -> all_chars isDigitOrComma p = true.
Proof.
  intros line p H. unfold priceMatch in H. apply search_found in H.
  destruct H as [suffix H].
  assert (Htail : forall s, price_tail s = Some p ->
                            all_chars isDigitOrComma p = true).
  { intros s Hs. unfold price_tail in Hs.
    destruct s as [|c r]; [discriminate|].
    destruct (isColon c); [|discriminate].
    pose proof (span_all isDigitOrComma (optional isDollar (skip isSpace r))) as Ha.
    destruct (is_empty _); [discriminate|]. injection Hs as <-. exact Ha. }
  unfold price_at in H.
  destruct (alternation ["List"; "Price"; "Sold"] suffix) as [r|]; [|discriminate].
  destruct (literal "Price" (skip isSpace r)) as [r'|].
  - destruct (price_tail r') eqn:E.
    + injection H as <-. now apply (Htail r').
    + now apply (Htail r).
  - now apply (Htail r).
Qed.

Lemma sqftMatch_chars : forall line p,
  sqftMatch line = Some p -> all_chars isDigitOrComma p = true.
Proof.
  intros line p H. unfold sqftMatch in H. apply search_found in H.
  destruct H as [suffix H]. unfold sqft_at in H.
  pose proof (span_all isDigitOrComma suffix) as Ha.
  destruct (span isDigitOrComma suffix) as [d r]. cbn [fst] in Ha.
  destruct (is_empty d); [discriminate|].
  destruct (is_some _); [|discriminate]. injection H as <-. exact Ha.
Qed.

Lemma bedroomMatch_chars : forall line p,
  bedroomMatch line = Some p -> all_chars isDigit p = true.
Proof.
  intros line p H. unfold bedroomMatch in H. apply search_found in H.
  destruct H as [suffix H]. unfold bedroom_at in H.
  pose proof (span_all isDigit suffix) as Ha.
  destruct (span isDigit suffix) as [d r]. cbn [fst] in Ha.
  destruct (is_empty d); [discriminate|].
  destruct (is_some _); [|discriminate]. injection H as <-. exact Ha.
Qed.

End CaptureFacts.

(* ================================================================== *)
(** * Invariants of the line loop *)
(* ================================================================== *)

Module LoopFacts.
Import Text Extractor Claims Properties NumberFacts TextFacts CaptureFacts
       ExtractorFacts.

(** ** The MLS number *)

Lemma mls_at_shape : forall s m,
  mls_at s = Some m ->
  exists d1 sep d2,
    m = (d1 ++ sep ++ d2)%string /\ d1 <> EmptyString
    /\ all_chars isDigit d1 = true
    /\ all_chars (fun c => isDash c || isSpace c) sep = true
    /\ all_chars isDigit d2 = true.
Proof.
  intros s m H. unfold mls_at in H.
  destruct (literal "MLS" s) as [r|]; [|discriminate].
  pose proof (span_all isDigit (skip isSpace (optional isHash r))) as Hd1.
  destruct (span isDigit (skip isSpace (optional isHash r))) as [d1 r1].
  cbn [fst] in Hd1.
  destruct d1 as [|c d1]; [discriminate H|]. cbn [is_empty] in H.
  pose proof (span_all (fun c => isDash c || isSpace c) r1) as Hsep.
  destruct (span (fun c => isDash c || isSpace c) r1) as [sep r2].
  pose proof (span_all isDigit r2) as Hd2.
  destruct (span isDigit r2) as [d2 r3]. cbn [fst] in *.
  injection H as <-.
  exists (String c d1), sep, d2. repeat split; try assumption. discriminate.
Qed.

Lemma mls_number_digits : forall line m,
  mlsMatch line = Some m ->
  let n := remove (fun c => isDash c || isSpace c) m in
  n <> EmptyString /\ all_chars isDigit n = true.
Proof.
  intros line m H n. subst n. unfold mlsMatch in H.
  apply search_found in H. destruct H as [suffix H].
  apply mls_at_shape in H.
  destruct H as (d1 & sep & d2 & -> & Hne & Hd1 & Hsep & Hd2).
  rewrite !remove_app, (remove_all _ _ Hsep).
  rewrite (remove_none _ isDigit d1 digit_is_no_separator Hd1).
  rewrite (remove_none _ isDigit d2 digit_is_no_separator Hd2).
  cbn [append]. split.
  - destruct d1; [contradiction | discriminate].
  - now rewrite all_chars_app, Hd1, Hd2.
Qed.

(** ** Invariants of the line loop *)

(** A predicate on listings that a fresh accumulator satisfies and that no
    field line destroys holds of every flushed listing. *)
Section LoopInvariant.

Variable P : Property.t -> Prop.

Hypothesis P_fresh : forall line m,
  mlsMatch line = Some m ->
  P (fresh (remove (fun c => isDash c || isSpace c) m)).
Hypothesis P_address : forall p v, P p -> P (set_address p v).
Hypothesis P_listPrice : forall p capture,
  all_chars isDigitOrComma capture = true ->
  P p -> P (set_listPrice p (parseInt (remove isComma capture))).
Hypothesis P_soldPrice : forall p capture,
  all_chars isDigitOrComma capture = true ->
  P p -> P (set_soldPrice p (parseInt (remove isComma capture))).
Hypothesis P_bedrooms : forall p capture,
  all_chars isDigit capture = true ->
  P p -> P (set_bedrooms p (parseInt capture)).
Hypothesis P_bathrooms : forall p v, P p -> P (set_bathrooms p v).
Hypothesis P_sqft : forall p capture,
  all_chars isDigitOrComma capture = true ->
  P p -> P (on_sqft p capture).

Lemma flush_kept : forall st, kept P st -> Forall P (flush st).
Proof.
  intros st [Hall Hcur]. unfold flush.
  destruct (Nat.ltb 0 (Property.keys_length (currentProperty st))); cbn [andb];
    [|exact Hall].
  destruct (truthy_str (Property.mlsNumber (currentProperty st))) eqn:E;
    [|exact Hall].
  apply Forall_app. split; [exact Hall|]. constructor; [|constructor].
  destruct Hcur as [Hnone | Hp]; [|exact Hp].
  rewrite Hnone in E. discriminate.
Qed.

Lemma step_kept : forall st line, kept P st -> kept P (step st line).
Proof.
  intros st line Hst. pose proof Hst as [Hall Hcur]. unfold step.
  destruct (is_empty (trim line)); [exact Hst|].
  destruct (mlsMatch (trim line)) as [m|] eqn:Em.
  { split; [now apply flush_kept | right; now apply (P_fresh _ Em)]. }
  assert (Hset : forall f : Property.t -> Property.t,
            (forall p, Property.mlsNumber (f p) = Property.mlsNumber p) ->
            (forall p, P p -> P (f p)) ->
            kept P (update st (f (currentProperty st)))).
  { intros f Hm Hf. split; [exact Hall|]. cbn [update currentProperty].
    destruct Hcur as [Hnone | Hp]; [left; now rewrite Hm | right; now apply Hf]. }
  destruct (addressMatch (trim line)).
  { apply (Hset (fun p => set_address p _)); [reflexivity | intros; now apply P_address]. }
  destruct (priceMatch (trim line)) as [c|] eqn:Ec.
  { apply priceMatch_chars in Ec.
    destruct (includes "sold" (toLowerCase (trim line))).
    - apply (Hset (fun p => set_soldPrice p _)); [reflexivity | intros; now apply P_soldPrice].
    - apply (Hset (fun p => set_listPrice p _)); [reflexivity | intros; now apply P_listPrice]. }
  destruct (bedroomMatch (trim line)) as [c|] eqn:Ec'.
  { apply bedroomMatch_chars in Ec'.
    apply (Hset (fun p => set_bedrooms p _)); [reflexivity | intros; now apply P_bedrooms]. }
  destruct (bathroomMatch (trim line)).
  { apply (Hset (fun p => set_bathrooms p _)); [reflexivity | intros; now apply P_bathrooms]. }
  destruct (sqftMatch (trim line)) as [c|] eqn:Ec''; [|exact Hst].
  apply sqftMatch_chars in Ec''.
  apply (Hset (fun p => on_sqft p _)); [intros; apply on_sqft_mlsNumber|].
  intros; now apply P_sqft.
Qed.

Lemma parse_lines_kept : forall ls, Forall P (parse_lines ls).
Proof.
  intros ls. unfold parse_lines, run. apply flush_kept.
  assert (H : forall st, kept P st -> kept P (fold_left step ls st)).
  { induction ls as [|l ls IH]; intros st Hst; cbn [fold_left]; [exact Hst|].
    apply IH. now apply step_kept. }
  apply H. split; [constructor | now left].
Qed.

End LoopInvariant.

Lemma listings_of_parse : forall (P : Property.t -> Prop) (text : string),
  Forall P (parse text) ->
  Forall P (MLSReport.activeListings (extractMLSData text)
            ++ MLSReport.closedListings (extractMLSData text)).
Proof.
  intros P text H. unfold extractMLSData. rewrite report_active, report_closed.
  apply Forall_app. split; now apply filter_Forall.
Qed.

Lemma parse_lines_digits : forall ls,
  Forall (fun p => exists s, Property.mlsNumber p = Some s
                             /\ s <> EmptyString
                             /\ all_chars isDigit s = true)
         (parse_lines ls).
Proof.
  intros ls. apply parse_lines_kept;
    try (intros p v H; exact H); try (intros p v _ H; exact H).
  - intros line m Hm. destruct (mls_number_digits _ Hm) as [Hne Hd].
    eexists. split; [reflexivity|]. now split.
  - intros p c _ H. now rewrite on_sqft_mlsNumber.
Qed.

(** X1: for every text, the MLS number of every listing of the extracted
    report, active or closed, is a non-empty string of digits: dashes and
    white space of the captured number are removed. *)
Theorem listing_mlsNumber_is_digits : forall text : string,
  Forall (fun p => exists s, Property.mlsNumber p = Some s
                             /\ s <> EmptyString
                             /\ all_chars isDigit s = true)
    (MLSReport.activeListings (extractMLSData text)
     ++ MLSReport.closedListings (extractMLSData text)).
Proof. intros text. apply listings_of_parse, parse_lines_digits. Qed.

Lemma on_sqft_untouched : forall cur capture,
  Untouched cur -> Untouched (on_sqft cur capture).
Proof.
  intros cur capture H. unfold on_sqft.
  destruct (Property.listPrice (set_sqft cur (parseInt (remove isComma capture))))
    as [lp|]; [destruct (truthy lp)|]; exact H.
Qed.

Lemma parse_lines_untouched : forall ls, Forall Untouched (parse_lines ls).
Proof.
  intros ls. apply parse_lines_kept;
    try (intros p v H; exact H); try (intros p v _ H; exact H).
  - intros line m Hm. repeat split.
  - intros p c _ H. now apply on_sqft_untouched.
Qed.

(** X2: for every text, every listing of the extracted report keeps the
    defaults of the fields no line can set: city "Plano", year built 0, an
    empty garage, no pool, 0 acres, and no sold date, days on market or
    sale-to-list ratio. *)
Theorem listing_fields_never_parsed : forall text : string,
  Forall Untouched
    (MLSReport.activeListings (extractMLSData text)
     ++ MLSReport.closedListings (extractMLSData text)).
Proof. intros text. apply listings_of_parse, parse_lines_untouched. Qed.

(** ** One listing per MLS-number line *)








End LoopFacts.

(* ================================================================== *)
(** * The statistics block *)
(* ================================================================== *)

Module StatisticsFacts.
Import Text Extractor Claims Properties TextFacts ExtractorFacts LoopFacts.
Import Traced.

Lemma value_bind : forall (A B : Type) (m : Traced.t A) (f : A -> Traced.t B),
  value (bind m f) = value (f (value m)).
Proof.
  intros A B [a ds] f. unfold bind, value. cbn [fst].
  destruct (f a) as [b ds']. reflexivity.
Qed.

Lemma divisors_bind : forall (A B : Type) (m : Traced.t A) (f : A -> Traced.t B),
  divisors (bind m f) = divisors m ++ divisors (f (value m)).
Proof.
  intros A B [a ds] f. unfold bind, value, divisors. cbn [fst snd].
  destruct (f a) as [b ds']. reflexivity.
Qed.

Ltac run_binds := repeat (rewrite value_bind; cbv beta).

Lemma statistics_averageDaysOnMarket : forall a c,
  Statistics.averageDaysOnMarket (statisticsOf a c)
  = value (calculateAverage (map (fun p => or_zero (Property.daysOnMarket p)) c)).
Proof. intros a c. unfold statisticsOf, synthesize. run_binds. reflexivity. Qed.

Lemma statistics_medianDaysOnMarket : forall a c,
  Statistics.medianDaysOnMarket (statisticsOf a c)
  = value (calculateMedian (map (fun p => or_zero (Property.daysOnMarket p)) c)).
Proof. intros a c. unfold statisticsOf, synthesize. run_binds. reflexivity. Qed.

Lemma report_statistics : forall ps,
  MLSReport.statistics (report_of ps)
  = statisticsOf (filter (fun p => negb (sold p)) ps) (filter sold ps).
Proof. intros ps. unfold report_of. now rewrite separate_filter. Qed.

Lemma zeros_minimum : forall n, fold_left Z.min (repeat 0%Z n) 0%Z = 0%Z.
Proof. induction n as [|n IH]; [reflexivity | exact IH]. Qed.

Lemma zeros_maximum : forall n, fold_left Z.max (repeat 0%Z n) 0%Z = 0%Z.
Proof. induction n as [|n IH]; [reflexivity | exact IH]. Qed.

Lemma average_of_zeros : forall n,
  value (calculateAverage (map of_Z (repeat 0%Z n))) = zero.
Proof.
  intros [|n]; [reflexivity|].
  destruct (@average_of_integers (repeat 0%Z (S n))) as (a & Ha & Hlo & Hhi);
    [discriminate|].
  cbn [repeat minimum maximum] in Hlo, Hhi.
  rewrite zeros_minimum in Hlo. rewrite zeros_maximum in Hhi.
  rewrite Ha. replace a with 0%Z by lia. reflexivity.
Qed.

Lemma median_of_zeros : forall n,
  value (calculateMedian (map of_Z (repeat 0%Z n))) = zero.
Proof.
  intros [|n]; [reflexivity|].
  destruct (@median_of_integers (repeat 0%Z (S n))) as (a & Ha & Hlo & Hhi);
    [discriminate|].
  cbn [repeat minimum maximum] in Hlo, Hhi.
  rewrite zeros_minimum in Hlo. rewrite zeros_maximum in Hhi.
  rewrite Ha. replace a with 0%Z by lia. reflexivity.
Qed.

Lemma daysOnMarket_of_untouched : forall c,
  Forall Untouched c ->
  map (fun p => or_zero (Property.daysOnMarket p)) c
  = map of_Z (repeat 0%Z (List.length c)).
Proof.
  induction 1 as [|p c Hp _ IH]; [reflexivity|].
  cbn [map List.length repeat]. rewrite IH. f_equal.
  destruct Hp as (_ & _ & _ & _ & _ & _ & Hd & _). now rewrite Hd.
Qed.

(** X4: for every text, the average and the median days on market of the
    extracted report are 0: no line sets a listing's days on market. *)
Theorem days_on_market_statistics_are_zero : forall text : string,
  let statistics := MLSReport.statistics (extractMLSData text) in
  Statistics.averageDaysOnMarket statistics = zero
  /\ Statistics.medianDaysOnMarket statistics = zero.
Proof.
  intros text. cbv zeta. unfold extractMLSData. rewrite report_statistics.
  rewrite statistics_averageDaysOnMarket, statistics_medianDaysOnMarket.
  assert (H : Forall Untouched (filter sold (parse text))).
  { apply filter_Forall. apply parse_lines_untouched. }
  rewrite (daysOnMarket_of_untouched H).
  split; [apply average_of_zeros | apply median_of_zeros].
Qed.

(** ** Divisors *)

Lemma of_nat_truthy : forall n, truthy (of_nat (S n)) = true.
Proof.
  intros n. unfold of_nat, of_Z, truthy, Qis_zero.
  destruct (Qeq_bool (inject_Z (Z.of_nat (S n))) 0) eqn:E; [|reflexivity].
  apply Qeq_bool_eq in E. unfold Qeq in E. cbn [inject_Z Qnum Qden] in E. lia.
Qed.

Lemma or_else_truthy : forall a, truthy (or_else a one) = true.
Proof. intros a. unfold or_else. destruct (truthy a) eqn:E; [exact E|reflexivity]. Qed.

Lemma calculateAverage_divisors : forall prices,
  Forall (fun d => truthy d = true) (divisors (calculateAverage prices)).
Proof.
  intros [|x r]; [constructor|].
  unfold calculateAverage. rewrite divisors_bind.
  cbn [divide divisors snd ret app List.length].
  constructor; [apply of_nat_truthy | constructor].
Qed.

Lemma calculateMedian_divisors : forall prices,
  Forall (fun d => truthy d = true) (divisors (calculateMedian prices)).
Proof.
  intros [|x r]; [constructor|].
  unfold calculateMedian. rewrite divisors_bind.
  change (divisors (divide ?a ?b)) with [b].
  cbv beta.
  destruct (Nat.eqb _ 0).
  - rewrite divisors_bind. repeat constructor.
  - repeat constructor.
Qed.

(** X5: among the divisions the statistics block evaluates, the only one
    whose divisor can be 0 or NaN is the division of [listToSoldRatio] by
    the average list price, which is evaluated when some sold price is
    positive. *)
Theorem statistics_divisors : forall (active closed : list Property.t) (d : number),
  In d (divisors (synthesize active closed)) ->
  truthy d = false ->
  soldPricesOf closed <> []
  /\ d = value (calculateAverage (activeListPricesOf active)).
Proof.
  intros active closed d Hin Hd.
  unfold synthesize in Hin.
  repeat (rewrite divisors_bind in Hin; cbv beta in Hin).
  assert (Hno : forall l, Forall (fun d => truthy d = true) l -> In d l -> False).
  { intros l Hl Hi. rewrite Forall_forall in Hl. specialize (Hl _ Hi). congruence. }
  repeat (apply in_app_or in Hin; destruct Hin as [Hin | Hin];
          [first [ exfalso; apply (Hno _ (calculateAverage_divisors _) Hin)
                 | exfalso; apply (Hno _ (calculateMedian_divisors _) Hin)
                 | idtac ] | ]).
  all: try (cbn [divide divisors snd ret In] in Hin;
            repeat destruct Hin as [Hin | Hin]; subst;
            try contradiction;
            first [ rewrite or_else_truthy in Hd; discriminate
                  | discriminate Hd ]).
  destruct (soldPricesOf closed) as [|x r]; [contradiction Hin|].
  split; [discriminate|].
  repeat (rewrite divisors_bind in Hin; cbv beta in Hin).
  apply in_app_or in Hin. destruct Hin as [Hin | Hin];
    [exfalso; apply (Hno _ (calculateAverage_divisors _) Hin)|].
  apply in_app_or in Hin. destruct Hin as [Hin | Hin];
    [exfalso; apply (Hno _ (calculateAverage_divisors _) Hin)|].
  destruct Hin as [Hin | []]. now subst.
Qed.

Lemma statistics_divisors_witness :
  soldPricesOf [set_soldPrice (fresh "1") (Num 595000)] <> []
  /\ Num 0 = value (calculateAverage (activeListPricesOf [])).
Proof.
  apply (@statistics_divisors [] [set_soldPrice (fresh "1") (Num 595000)] (Num 0)).
  - vm_compute. repeat (first [left; reflexivity | right]).
  - reflexivity.
Defined.

End StatisticsFacts.

(* ================================================================== *)
(** * The extracted report *)
(* ================================================================== *)

Module ReportFacts.
Import Text Extractor Claims Properties TextFacts ExtractorFacts LoopFacts.

Lemma report_marketTrends : forall ps,
  MLSReport.marketTrends (report_of ps)
  = MarketTrends.mk [] []
      (ForecastTriple.mk zeroForecast zeroForecast zeroForecast).
Proof. intros ps. unfold report_of. now destruct (separate ps). Qed.

(** X6: for every text, the assertion validator throws on the extracted
    report, with message "Invalid confidence value" at
    [forecast.nextMonth.confidence]: the extractor fills the forecast with
    confidence 0. *)
Theorem extracted_report_never_validates : forall text : string,
  Validator.validateMLSReport (extractMLSData text)
  = Validator.Throw
      (Validator.EValidation
         (Validator.mkError "Invalid confidence value"
                            "forecast.nextMonth.confidence")).
Proof.
  intros text. unfold extractMLSData, Validator.validateMLSReport.
  rewrite report_marketTrends. reflexivity.
Qed.



End ReportFacts.

(* ================================================================== *)
(** * The numbers of a listing *)
(* ================================================================== *)

Module ListingFacts.
Import Text Extractor Properties NumberFacts ComparisonFacts TextFacts CaptureFacts
       ExtractorFacts LoopFacts.







End ListingFacts.

(* ================================================================== *)
(** * The error-collecting validator on extracted reports *)
(* ================================================================== *)

Module CollectorFacts.
Import Text Extractor Collector Properties NumberFacts ExtractorFacts LoopFacts
       StatisticsFacts.
Import Traced.

Lemma length_push_if : forall cond message,
  List.length (push_if cond message) = if cond then 1%nat else 0%nat.
Proof. intros [|] message; reflexivity. Qed.

Lemma below_zero_is_out_of_range : forall price,
  (price <? zero)%js = true -> (price <? Num 1000)%js = true.
Proof.
  intros [q| | |] H; try discriminate H; [|reflexivity].
  cbn [JS.lt zero] in *. apply Qlt_bool_inv in H. apply Qlt_bool_true. lra.
Qed.

(** X9: [validatePrice] pushes two errors for a negative price: the
    negative-value error and the out-of-range error. *)
Theorem negative_price_is_reported_twice :
  forall (toString : number -> string) (price : number) (name : string),
    (price <? zero)%js = true ->
    List.length (validatePrice toString price name) = 2%nat.
Proof.
  intros toString price name H. unfold validatePrice.
  rewrite length_app, !length_push_if, H, (below_zero_is_out_of_range _ H).
  reflexivity.
Qed.

Lemma negative_price_witness :
  List.length (validatePrice (fun _ => "-1") (Num (-1)) "Average list price")
  = 2%nat.
Proof. apply negative_price_is_reported_twice. reflexivity. Defined.

Lemma untouched_listing_errors :
  forall (toString : number -> string) (currentYear : number) p index,
    Untouched p ->
    (1 <= List.length (listingErrors toString currentYear p index))%nat.
Proof.
  intros toString currentYear p index (_ & Hyear & _). unfold listingErrors.
  rewrite !length_app, !length_push_if. unfold outside at 3. rewrite Hyear.
  change (to_number (Some zero) <? Num 1800)%js with true. cbn [orb]. lia.
Qed.

Lemma forEachListing_length :
  forall (toString : number -> string) (currentYear : number) listings index,
    Forall Untouched listings ->
    (List.length listings
     <= List.length (forEachListing toString currentYear listings index))%nat.
Proof.
  intros toString currentYear.
  induction listings as [|p rest IH]; intros index H; [cbn; lia|].
  inversion H as [|? ? Hp Hrest]; subst.
  cbn [forEachListing List.length]. rewrite length_app.
  pose proof (untouched_listing_errors toString currentYear index Hp).
  specialize (IH (S index) Hrest). lia.
Qed.

Lemma statistics_averageListPrice : forall a c,
  Statistics.averageListPrice (statisticsOf a c)
  = value (calculateAverage (activeListPricesOf a)).
Proof. intros a c. unfold statisticsOf, synthesize. run_binds. reflexivity. Qed.

(** X10: for every text, the error-collecting [validateMLSReport] returns at
    least one error on the extracted report, and at least one per active
    listing: every listing has year built 0, and without active listings
    the average list price is 0. *)
Theorem extracted_report_always_has_errors :
  forall (toString : number -> string) (currentYear : number) (text : string),
    let report := extractMLSData text in
    let errors := validateMLSReport toString currentYear report in
    (1 <= List.length errors)%nat
    /\ (List.length (MLSReport.activeListings report) <= List.length errors)%nat.
Proof.
  intros toString currentYear text report errors.
  assert (Hactive : Forall Untouched (MLSReport.activeListings report)).
  { pose proof (listings_of_parse text (parse_lines_untouched (split_lines text)))
      as H. apply Forall_app in H. exact (proj1 H). }
  assert (Hlen : (List.length (MLSReport.activeListings report)
                  <= List.length errors)%nat).
  { unfold errors, validateMLSReport. rewrite length_app.
    pose proof (forEachListing_length toString currentYear 0 Hactive). lia. }
  split; [|exact Hlen].
  destruct (MLSReport.activeListings report) as [|p rest] eqn:Ea;
    [|cbn [List.length] in Hlen; lia].
  unfold errors, validateMLSReport. rewrite Ea. cbn [forEachListing app].
  rewrite length_app.
  assert (Havg : Statistics.averageListPrice (MLSReport.statistics report) = zero).
  { unfold report, extractMLSData in *. rewrite report_statistics.
    rewrite report_active in Ea. rewrite Ea.
    now rewrite statistics_averageListPrice. }
  rewrite Havg. change (List.length (validatePrice toString zero "Average list price"))
    with 1%nat. lia.
Qed.

End CollectorFacts.

(* ================================================================== *)
(** * The assertion validator: acceptance and error paths *)
(* ================================================================== *)

Module AssertionFacts.
Import Text Validator Rules Samples Claims Properties NumberFacts ComparisonFacts
       ValidatorFacts.

Lemma member_iff : forall s l, member s l = true <-> In s l.
Proof.
  intros s l. split; [|apply member_In].
  unfold member. intros H. apply existsb_exists in H.
  destruct H as (x & Hx & E). apply String.eqb_eq in E. now subst.
Qed.

Lemma range_guard : forall lo hi a,
  ((a <? Num lo) || (a >? Num hi))%js = false <-> Unrejected lo hi a.
Proof.
  intros lo hi a. split.
  - intros H. apply orb_false_iff in H. destruct H as [Hlo Hhi].
    destruct a as [x| | |]; try discriminate; [|now left].
    right. split; [reflexivity|]. cbn [val].
    cbn [lt gt] in Hlo, Hhi.
    apply Qlt_bool_false_inv in Hlo. apply Qlt_bool_false_inv in Hhi. now split.
  - intros [-> | H]; [reflexivity | now apply within_bounds].
Qed.

(** X11: [validateSchoolInfo] returns exactly when the type is one of the
    three school types and each of rating (0 to 10), distance (0 to 10) and
    student-teacher ratio (10 to 30) is inside its range or NaN. *)
Theorem validateSchoolInfo_accepts : forall s : SchoolInfo.t,
  validateSchoolInfo s = Ok tt
  <-> In (SchoolInfo.type s) schoolTypes
      /\ Unrejected 0 10 (SchoolInfo.rating s)
      /\ Unrejected 0 10 (SchoolInfo.distance s)
      /\ Unrejected 10 30 (SchoolInfo.studentTeacherRatio s).
Proof.
  intros s. unfold validateSchoolInfo, isSchoolInfo. split.
  - intros H.
    apply seq_inv in H. destruct H as [H1 H].
    apply seq_inv in H. destruct H as [H2 H].
    apply seq_inv in H. destruct H as [_ H].
    apply seq_inv in H. destruct H as [H4 H5].
    apply guard_inv in H1, H2, H4, H5.
    apply negb_false_iff, member_iff in H1.
    repeat split; [exact H1 | | | ]; now apply range_guard.
  - intros (Ht & Hr & Hd & Hq).
    apply member_iff in Ht. apply range_guard in Hr, Hd, Hq.
    unfold THRESHOLDS.MAX_SCHOOL_DISTANCE, THRESHOLDS.MIN_STUDENT_TEACHER_RATIO,
      THRESHOLDS.MAX_STUDENT_TEACHER_RATIO, zero.
    rewrite Ht, Hr, Hd, Hq. reflexivity.
Qed.

(** X12: [validateSchoolInfo] returns or throws a validation error whose
    field is "structure", "rating", "distance" or "studentTeacherRatio";
    the guard that reports "type" is never reached. *)
Theorem validateSchoolInfo_reported_fields : forall s : SchoolInfo.t,
  validateSchoolInfo s = Ok tt
  \/ exists e, validateSchoolInfo s = Throw (EValidation e)
               /\ In (field e) ["structure"; "rating"; "distance";
                                "studentTeacherRatio"].
Proof.
  intros s. unfold validateSchoolInfo, isSchoolInfo.
  destruct (member (SchoolInfo.type s) schoolTypes); cbn [negb guard seq].
  2: { right. eexists. split; [reflexivity|]. cbn. auto. }
  destruct ((SchoolInfo.rating s <? zero) || (SchoolInfo.rating s >? Num 10))%js;
    cbn [guard seq].
  { right. eexists. split; [reflexivity|]. cbn. auto. }
  destruct ((SchoolInfo.distance s <? zero)
            || (SchoolInfo.distance s >? THRESHOLDS.MAX_SCHOOL_DISTANCE))%js;
    cbn [guard seq].
  { right. eexists. split; [reflexivity|]. cbn. auto. }
  destruct ((SchoolInfo.studentTeacherRatio s <? THRESHOLDS.MIN_STUDENT_TEACHER_RATIO)
            || (SchoolInfo.studentTeacherRatio s
                  >? THRESHOLDS.MAX_STUDENT_TEACHER_RATIO))%js;
    cbn [guard seq].
  { right. eexists. split; [reflexivity|]. cbn. auto. }
  now left.
Qed.

(** X13: [validateDemographicMetric] returns or throws a validation error
    whose field is "structure" or "value"; the guard that reports "trend"
    is never reached. *)
Theorem validateDemographicMetric_reported_fields : forall m : DemographicMetric.t,
  validateDemographicMetric m = Ok tt
  \/ exists e, validateDemographicMetric m = Throw (EValidation e)
               /\ In (field e) ["structure"; "value"].
Proof.
  intros m. unfold validateDemographicMetric, isDemographicMetric.
  destruct (member (DemographicMetric.trend m) trends); cbn [negb guard seq].
  2: { right. eexists. split; [reflexivity|]. cbn. auto. }
  destruct (DemographicMetric.value m <=? zero)%js; cbn [guard seq].
  { right. eexists. split; [reflexivity|]. cbn. auto. }
  now left.
Qed.

(** ** Loops that stop at the first failure *)



Lemma forEach_from_inv : forall (A : Type) (body : A -> nat -> result unit)
    (l : list A) (index : nat),
  forEach_from body l index = Ok tt ->
  forall i x, nth_error l i = Some x -> body x (index + i)%nat = Ok tt.
Proof.
  induction l as [|y l IH]; intros index H i x Hi.
  - destruct i; discriminate Hi.
  - cbn [forEach_from] in H. apply seq_inv in H. destruct H as [Hy Hl].
    destruct i as [|i]; cbn [nth_error] in Hi.
    + injection Hi as <-. now rewrite Nat.add_0_r.
    + replace (index + S i)%nat with (S index + i)%nat by lia.
      now apply (IH (S index)).
Qed.

Lemma Adjacent_nth : forall (A : Type) (R : A -> A -> Prop) (l : list A),
  (forall i a b, nth_error l i = Some a -> nth_error l (S i) = Some b -> R a b) ->
  Adjacent R l.
Proof.
  induction l as [|a l IH]; intros H; [exact I|].
  destruct l as [|b l]; [exact I|].
  split.
  - apply (H 0%nat); reflexivity.
  - apply IH. intros i x y Hx Hy. apply (H (S i)); assumption.
Qed.

(** X14: when [validateMarketTrends] returns, every date of the price history
    matches YYYY-MM and the dates are strictly increasing. *)
Theorem accepted_history_is_chronological : forall t : MarketTrends.t,
  validateMarketTrends t = Ok tt ->
  DatedHistory (MarketTrends.priceHistory t)
  /\ Chronological (MarketTrends.priceHistory t).
Proof.
  intros t H. unfold validateMarketTrends in H.
  apply seq_inv in H. destruct H as [H _]. unfold forEach in H.
  pose proof (@forEach_from_inv _ _ _ _ H) as Hbody. clear H.
  cbn [Nat.add] in Hbody. split.
  - apply Forall_forall. intros p Hp.
    apply In_nth_error in Hp. destruct Hp as [i Hi].
    specialize (Hbody i p Hi). cbv beta in Hbody.
    apply seq_inv in Hbody. destruct Hbody as [Hpoint _].
    unfold validatePricePoint in Hpoint.
    apply seq_inv in Hpoint. destruct Hpoint as [Hdate _].
    apply guard_inv in Hdate. now apply negb_false_iff in Hdate.
  - apply Adjacent_nth. intros i a b Ha Hb.
    specialize (Hbody (S i) b Hb). cbv beta in Hbody.
    apply seq_inv in Hbody. destruct Hbody as [_ Hstep].
    change (Nat.ltb 0 (S i)) with true in Hstep. cbv iota in Hstep.
    replace (S i - 1)%nat with i in Hstep by lia. rewrite Ha in Hstep.
    apply seq_inv in Hstep. destruct Hstep as [Hchrono _].
    apply guard_inv in Hchrono.
    unfold String.ltb. unfold String.leb in Hchrono.
    rewrite String.compare_antisym in Hchrono.
    destruct (String.compare (PricePoint.date a) (PricePoint.date b));
      cbn in Hchrono |- *; congruence.
Qed.

Lemma accepted_history_witness :
  DatedHistory (MarketTrends.priceHistory (MLSReport.marketTrends sampleReport))
  /\ Chronological (MarketTrends.priceHistory (MLSReport.marketTrends sampleReport)).
Proof.
  apply (accepted_history_is_chronological (MLSReport.marketTrends sampleReport)).
  vm_compute. reflexivity.
Defined.

(** ** The listings loop *)




End AssertionFacts.

(* ================================================================== *)
(** * The forecast engine: shape, confidence, dates *)
(* ================================================================== *)

Module PredictionFacts.
Import Text MarketPredictions Rules TrendSpec Samples Claims Properties NumberFacts
       ComparisonFacts ForecastFacts.

(** ** Moving average *)

Lemma map_flat_map : forall (A B C : Type) (g : B -> C) (f : A -> list B) l,
  map g (flat_map f l) = flat_map (fun a => map g (f a)) l.
Proof.
  intros A B C g f l. induction l as [|a l IH]; [reflexivity|].
  cbn [flat_map]. now rewrite map_app, IH.
Qed.

Lemma flat_map_head : forall (A B : Type) (f : A -> list B) a l,
  flat_map f (a :: l) = f a ++ flat_map f l.
Proof. reflexivity. Qed.

Lemma window_dates : forall (whole : list PricePoint.t) (period : nat)
    (l : list PricePoint.t) (k : nat),
  (forall i, nth_error l i = nth_error whole (k + i)) ->
  flat_map
    (fun index =>
       map ma_date
         (if Nat.ltb (S index) period then []
          else
            match nth_error whole index with
            | Some p =>
                [mkMA (PricePoint.date p)
                      (sumPrices (firstn period (skipn (S index - period) whole))
                       / of_nat period)%js]
            | None => []
            end))
    (seq k (List.length l))
  = map PricePoint.date (skipn (period - 1 - k) l).
Proof.
  intros whole period l. induction l as [|x r IH]; intros k Hnth.
  - now rewrite skipn_nil.
  - cbn [List.length]. rewrite <- cons_seq, flat_map_head.
    rewrite (IH (S k))
      by (intros i; change (nth_error r i) with (nth_error (x :: r) (S i));
          rewrite Hnth; f_equal; lia).
    specialize (Hnth 0%nat). rewrite Nat.add_0_r in Hnth. cbn [nth_error] in Hnth.
    rewrite <- Hnth.
    destruct (Nat.ltb (S k) period) eqn:E.
    + apply Nat.ltb_lt in E.
      replace (period - 1 - k)%nat with (S (period - 1 - S k)) by lia.
      reflexivity.
    + apply Nat.ltb_ge in E.
      replace (period - 1 - k)%nat with 0%nat by lia.
      replace (period - 1 - S k)%nat with 0%nat by lia.
      reflexivity.
Qed.

(** X16: the dates of [calculateMovingAverage prices period] are the dates
    of the price points from the [period]-th on, in order (all of them for
    a period of 0 or 1). *)
Theorem moving_average_dates : forall (prices : list PricePoint.t) (period : nat),
  map ma_date (calculateMovingAverage prices period)
  = map PricePoint.date (skipn (period - 1) prices).
Proof.
  intros prices period. unfold calculateMovingAverage.
  rewrite map_flat_map. cbv zeta.
  rewrite (@window_dates prices period prices 0) by reflexivity.
  now rewrite Nat.sub_0_r.
Qed.

(** ** Trend strength *)

Lemma Qsqrt_nonneg : forall q, 0 <= Qsqrt q.
Proof.
  intros q. unfold Qsqrt, Qle. cbn [Qnum Qden].
  pose proof (Z.sqrt_nonneg (Qnum q * Z.pos (Qden q) * 4 ^ 53)). lia.
Qed.

Lemma Math_sqrt_never_negative : forall a, NeverNegative (Math_sqrt a).
Proof.
  intros [x| | |]; cbn [Math_sqrt NeverNegative]; try exact I.
  destruct (Qlt_bool x 0); [exact I | apply Qsqrt_nonneg].
Qed.

Lemma abs_over_never_negative : forall a v,
  NeverNegative v -> v <> NegInf -> NeverNegative (Math_abs a / v)%js.
Proof.
  intros a v Hv Hneg.
  destruct a as [x| | |], v as [y| | |];
    cbn [Math_abs JS.div NeverNegative] in *; try exact I; try contradiction;
    try (apply Qle_refl).
  - destruct (Qis_zero y) eqn:Ez.
    + pose proof (Qabs_nonneg x) as Hx.
      destruct (Qabs x ?= 0)%Q eqn:Ec; cbn [signed_inf NeverNegative]; try exact I.
      apply Qlt_alt in Ec. lra.
    + cbn [NeverNegative]. unfold Qdiv.
      apply Qmult_le_0_compat; [apply Qabs_nonneg | now apply Qinv_le_0_compat].
  - rewrite (Qlt_bool_false Hv). exact I.
  - rewrite (Qlt_bool_false Hv). exact I.
Qed.

(** X17: the strength [calculateTrendStrength] returns is never negative: it
    is a finite number that is at least 0, Infinity or NaN. *)
Theorem trend_strength_is_never_negative : forall recentPrices : list PricePoint.t,
  NeverNegative (strength (calculateTrendStrength recentPrices)).
Proof.
  intros recentPrices. unfold calculateTrendStrength.
  destruct (Nat.ltb (List.length recentPrices) 2); cbn [strength].
  - apply Qle_refl.
  - unfold volatilityOf. apply abs_over_never_negative.
    + apply Math_sqrt_never_negative.
    + intros E.
      pose proof (Math_sqrt_never_negative
        (fold_left (fun acc val =>
           (acc + Math_pow (val - avgChangeOf (priceChangesOf recentPrices)) 2)%js)
           (priceChangesOf recentPrices) zero
         / of_nat (List.length (priceChangesOf recentPrices)))%js) as H.
      rewrite E in H. exact H.
Qed.

(** ** Predictions *)








(** ** Confidence *)









(** ** Dates *)

Lemma months_printed : forallb monthPrinted (seq 0 12) = true.
Proof. vm_compute. reflexivity. Qed.

Ltac evaluate_digit :=
  match goal with
  | |- context [digit ?c] =>
      let v := eval vm_compute in (digit c) in change (digit c) with v
  end.

(** The printed digits read back as the number printed. *)
Lemma printed_digits : forall (u : Decimal.uint) (acc : nat),
  Nat.of_uint_acc u acc = readDigits (NilEmpty.string_of_uint u) acc
  /\ all_chars isDigit (NilEmpty.string_of_uint u) = true.
Proof.
  induction u as [|u IH|u IH|u IH|u IH|u IH|u IH|u IH|u IH|u IH|u IH];
    intros acc; [now split| ..];
    cbn [Nat.of_uint_acc NilEmpty.string_of_uint readDigits all_chars];
    (split; [|exact (proj2 (IH acc))]);
    rewrite (proj1 (IH _)); f_equal; rewrite Nat.tail_mul_spec;
    evaluate_digit; lia.
Qed.

Lemma show_reads : forall y : nat,
  readDigits (Validator.show y) 0 = y
  /\ all_chars isDigit (Validator.show y) = true.
Proof.
  intros y. unfold Validator.show.
  destruct (printed_digits (Nat.to_uint y) 0) as [Hv Hd].
  split; [|exact Hd]. rewrite <- Hv. apply DecimalNat.Unsigned.of_to.
Qed.

Lemma leading_digit : forall (u : Decimal.uint) c r,
  NilEmpty.string_of_uint u = String c r -> digit c = 0%nat ->
  exists u', u = Decimal.D0 u'.
Proof.
  intros u c r H Hc.
  destruct u as [|u|u|u|u|u|u|u|u|u|u];
    cbn [NilEmpty.string_of_uint] in H; try discriminate H;
    injection H as <- _;
    try (vm_compute in Hc; discriminate Hc).
  exists u. reflexivity.
Qed.

Lemma show_leading_digit : forall y c r,
  y <> 0%nat -> Validator.show y = String c r -> digit c <> 0%nat.
Proof.
  intros y c r Hy H Hc. unfold Validator.show in H.
  destruct (leading_digit _ H Hc) as [u' Hu].
  pose proof (DecimalNat.Unsigned.to_of (Nat.to_uint y)) as Hnorm.
  rewrite DecimalNat.Unsigned.of_to, Hu, DecimalFacts.unorm_D0 in Hnorm.
  unfold Decimal.unorm in Hnorm.
  destruct (Decimal.nzhead u') eqn:En; try discriminate Hnorm.
  - injection Hnorm as ->. apply Hy.
    rewrite <- (DecimalNat.Unsigned.of_to y), Hu. reflexivity.
  - exact (DecimalFacts.nzhead_nonzero _ _ En).
Qed.

Lemma digit_at_most_9 : forall c, isDigit c = true -> (digit c <= 9)%nat.
Proof.
  intros c H. unfold isDigit, between in H. apply andb_true_iff in H.
  destruct H as [_ H]. apply Nat.leb_le in H. unfold digit. lia.
Qed.

Lemma readDigits_grows : forall s acc, (acc <= readDigits s acc)%nat.
Proof.
  induction s as [|c r IH]; intros acc; cbn [readDigits]; [lia|].
  specialize (IH (10 * acc + digit c)%nat). lia.
Qed.

(** The year as [isoMonth] prints it: four digits that read back as the
    year. *)
Lemma year_printed : forall y : nat,
  (100 <= y < 100 * 100)%nat ->
  Nat.leb (String.length (Validator.show y)) 4 = true
  /\ exists a b c e,
       pad 4 (Validator.show y)
       = String a (String b (String c (String e EmptyString)))
       /\ isDigit a = true /\ isDigit b = true /\ isDigit c = true
       /\ isDigit e = true
       /\ (1000 * digit a + 100 * digit b + 10 * digit c + digit e)%nat = y.
Proof.
  intros y Hy. destruct (show_reads y) as [Hv Hd].
  pose proof (@show_leading_digit y) as Hlead.
  destruct (Validator.show y) as [|a [|b [|c [|e [|f r]]]]];
    cbn [readDigits all_chars] in Hv, Hd;
    repeat (apply andb_true_iff in Hd; destruct Hd as [? Hd]);
    repeat match goal with
           | H : isDigit _ = true |- _ =>
               pose proof (digit_at_most_9 _ H); revert H
           end; intros.
  - lia.
  - lia.
  - lia.
  - split; [reflexivity|].
    exists "0"%char, a, b, c. repeat split; try assumption.
    change (digit "0") with 0%nat. lia.
  - split; [reflexivity|].
    exists a, b, c, e. repeat split; try assumption. lia.
  - exfalso.
    assert (Ha : digit a <> 0%nat) by (eapply Hlead; [lia | reflexivity]).
    pose proof (readDigits_grows r
      (10 * (10 * (10 * (10 * (10 * 0 + digit a) + digit b) + digit c)
             + digit e) + digit f)) as Hg.
    lia.
Qed.

(** X21: for a year from 100 to 9999, printing a month as
    [toISOString().slice(0, 7)] does and parsing the result gives the month
    back.  Below 100 the padding of [isoMonth] is not that of
    [toISOString]; from 10000 on the printed form is no YYYY-MM. *)
Theorem isoMonth_parses_back : forall d : Date,
  (100 <= year d < 100 * 100)%nat -> (monthIndex d < 12)%nat ->
  parseDate (isoMonth d) = Some d.
Proof.
  intros [y m] Hy Hm. cbn [year monthIndex] in Hy, Hm.
  destruct (year_printed Hy)
    as (Hlen & a & b & c & e & Hpad & Ha & Hb & Hc & He & Hyear).
  assert (Hmonth : monthPrinted m = true).
  { pose proof months_printed as H. rewrite forallb_forall in H.
    apply H, in_seq. lia. }
  unfold monthPrinted in Hmonth.
  unfold isoMonth. cbn [year monthIndex]. rewrite Hlen, Hpad.
  destruct (pad 2 (Validator.show (S m))) as [|f [|g [|? ?]]];
    try discriminate Hmonth.
  do 2 (apply andb_true_iff in Hmonth; destruct Hmonth as [Hmonth ?]).
  repeat match goal with H : Nat.eqb _ _ = true |- _ => apply Nat.eqb_eq in H end.
  cbn [append parseDate].
  repeat match goal with H : isDigit _ = true |- _ => rewrite H end.
  change (isDash "-") with true. cbn [andb].
  repeat match goal with H : _ = S m |- _ => rewrite H end.
  rewrite Hyear.
  assert (E1 : Nat.leb 1 (S m) = true) by (apply Nat.leb_le; lia).
  assert (E2 : Nat.leb (S m) 12 = true) by (apply Nat.leb_le; lia).
  rewrite E1, E2. cbn [andb]. f_equal. f_equal. lia.
Qed.

Lemma isoMonth_parses_back_witness :
  parseDate (isoMonth (mkDate 2024 10)) = Some (mkDate 2024 10).
Proof.
  apply isoMonth_parses_back; cbn [year monthIndex];
    [split; [apply Nat.leb_le | apply Nat.ltb_lt] | apply Nat.ltb_lt];
    reflexivity.
Defined.

End PredictionFacts.

(* ================================================================== *)
(** * The seasonality pattern *)
(* ================================================================== *)

Module SeasonalityFacts.
Import SeasonalityPattern Properties NumberFacts ComparisonFacts.

Lemma store_same : forall arr i v, nth_error (store arr i v) i = Some (Some v).
Proof.
  intros arr i. revert arr. induction i as [|i IH]; intros [|x r] v;
    cbn [store nth_error]; try reflexivity; apply IH.
Qed.

Lemma store_other : forall arr k v i x,
  i <> k -> nth_error arr i = Some x -> nth_error (store arr k v) i = Some x.
Proof.
  intros arr k. revert arr. induction k as [|k IH]; intros [|y r] v i x Hne Hi;
    try (destruct i; discriminate Hi).
  - destruct i as [|i]; [contradiction | exact Hi].
  - destruct i as [|i]; [exact Hi|].
    cbn [store nth_error] in *. apply IH; [lia | exact Hi].
Qed.

Lemma read_slot : forall arr i v, nth_error arr i = Some (Some v) -> read arr i = v.
Proof. intros arr i v H. unfold read. now rewrite H. Qed.

Lemma accumulate_slot : forall i acc a c d,
  Slot i acc a c ->
  Slot i (accumulate acc d)
       (total (dataOf i [d]) a) (tally (dataOf i [d]) c).
Proof.
  intros i acc a c d [Ha Hc]. unfold accumulate, dataOf. cbn [filter].
  destruct (arrayIndex (SeasonalityData.month d - one)%js) as [k|];
    [|now split].
  destruct (Nat.eqb k i) eqn:E.
  - apply Nat.eqb_eq in E. subst k. cbn [total tally fold_left].
    split; cbn [avgByMonth countByMonth].
    + rewrite (read_slot _ _ Ha). apply store_same.
    + rewrite (read_slot _ _ Hc). apply store_same.
  - apply Nat.eqb_neq in E. cbn [total tally fold_left].
    split; cbn [avgByMonth countByMonth]; apply store_other; auto.
Qed.

Lemma dataOf_cons : forall i d l, dataOf i (d :: l) = dataOf i [d] ++ dataOf i l.
Proof.
  intros i d l. unfold dataOf. cbn [filter].
  now destruct (match arrayIndex _ with Some k => Nat.eqb k i | None => false end).
Qed.

Lemma fold_slot : forall i l acc a c,
  Slot i acc a c ->
  Slot i (fold_left accumulate l acc) (total (dataOf i l) a) (tally (dataOf i l) c).
Proof.
  intros i l. induction l as [|d l IH]; intros acc a c H; [exact H|].
  cbn [fold_left]. rewrite dataOf_cons. unfold total, tally.
  rewrite !fold_left_app. apply IH. now apply accumulate_slot.
Qed.

Lemma map_from_nth : forall (A B : Type) (f : nat -> A -> B) l k i,
  nth_error (map_from f k l) i = option_map (f (k + i)%nat) (nth_error l i).
Proof.
  intros A B f l. induction l as [|x r IH]; intros k i.
  - now destruct i.
  - destruct i as [|i]; cbn [map_from nth_error option_map].
    + now rewrite Nat.add_0_r.
    + rewrite IH. now replace (S k + i)%nat with (k + S i)%nat by lia.
Qed.

Lemma zeros_slot : forall i, (i < 12)%nat -> Slot i (mkSums zeros zeros) zero zero.
Proof.
  intros i Hi. unfold Slot, zeros. cbn [avgByMonth countByMonth].
  do 12 (destruct i as [|i]; [now split|]). lia.
Qed.

Lemma tally_value : forall data q,
  exists q', tally data (Num q) = Num q'
             /\ q' == q + inject_Z (Z.of_nat (List.length data)).
Proof.
  induction data as [|d data IH]; intros q.
  - exists q. split; [reflexivity|]. cbn [List.length].
    change (inject_Z (Z.of_nat 0)) with 0. lra.
  - cbn [tally fold_left]. fold (tally data (Num q + one)%js).
    change (Num q + one)%js with (Num (q + 1)).
    destruct (IH (q + 1)) as (q' & Hq' & E). exists q'. split; [exact Hq'|].
    rewrite E. cbn [List.length]. rewrite Nat2Z.inj_succ, <- Z.add_1_l.
    rewrite inject_Z_plus. change (inject_Z 1) with 1. lra.
Qed.

Lemma tally_truthy : forall data,
  truthy (tally data zero) = match data with [] => false | _ => true end.
Proof.
  intros [|d data]; [reflexivity|].
  destruct (tally_value (d :: data) 0) as (q & Hq & E). unfold zero. rewrite Hq.
  cbn [truthy]. unfold Qis_zero.
  destruct (Qeq_bool q 0) eqn:Ez; [|reflexivity].
  apply Qeq_bool_eq in Ez. rewrite Ez in E.
  assert (H : 0 <= inject_Z (Z.of_nat (List.length data))).
  { change 0 with (inject_Z 0). rewrite <- Zle_Qle. lia. }
  cbn [List.length] in E. rewrite Nat2Z.inj_succ, <- Z.add_1_l in E.
  rewrite inject_Z_plus in E. change (inject_Z 1) with 1 in E. lra.
Qed.

(** X22: each of the first twelve entries of [analyzeSeasonality] is null
    when no entry of the input falls on its month, and otherwise the sum of
    the average prices of those entries, added in input order, over their
    count. *)
Theorem seasonality_slot :
  forall (seasonality : list SeasonalityData.t) (i : nat),
    (i < 12)%nat ->
    let data := dataOf i seasonality in
    nth_error (analyzeSeasonality seasonality) i
    = Some (Some (match data with
                  | [] => None
                  | _ => Some (total data zero / tally data zero)%js
                  end)).
Proof.
  intros seasonality i Hi data. unfold analyzeSeasonality.
  destruct (fold_slot seasonality (zeros_slot Hi)) as [Ha Hc].
  fold data in Ha, Hc.
  rewrite map_from_nth, Ha. cbn [option_map Nat.add average].
  rewrite (read_slot _ _ Hc), tally_truthy.
  now destruct data.
Qed.

Lemma seasonality_slot_witness :
  nth_error (analyzeSeasonality
               [SeasonalityData.mk (Num 3) (Num 100) (Num 1);
                SeasonalityData.mk (Num 1) (Num 7) (Num 1);
                SeasonalityData.mk (Num 3) (Num 300) (Num 1)]) 2
  = Some (Some (Some ((zero + Num 100 + Num 300) / (zero + one + one))%js)).
Proof.
  apply (@seasonality_slot
           [SeasonalityData.mk (Num 3) (Num 100) (Num 1);
            SeasonalityData.mk (Num 1) (Num 7) (Num 1);
            SeasonalityData.mk (Num 3) (Num 300) (Num 1)] 2).
  lia.
Defined.

End SeasonalityFacts.

(* ================================================================== *)
(** * The retry loop *)
(* ================================================================== *)

Module RetryFacts.
Import Text PdfProcessor PdfContent Properties NumberFacts ComparisonFacts.

Section Loop.

Variable extractMLSData : extractor.
Variable text : string.
Variable maxAttempts : number.

(** A pass that does not return leaves the loop running, with the error of
    this pass or the one it was given. *)
Lemma attempts_pass : forall fuel attempt lastError,
  (of_nat attempt <? maxAttempts)%js = true ->
  returned (once extractMLSData text) = None ->
  attempts extractMLSData text maxAttempts (S fuel) attempt lastError
  = attempts extractMLSData text maxAttempts fuel (S attempt)
      (match logged (once extractMLSData text) with
       | Some e => Some e
       | None => lastError
       end).
Proof.
  intros fuel attempt lastError Hlt Hnone. cbn [attempts]. rewrite Hlt.
  unfold once in *. destruct (extractMLSData text) as [data|error].
  - cbn [returned logged] in *. destruct (hasListings data); [discriminate|].
    reflexivity.
  - reflexivity.
Qed.


(** A returned report is the extractor's, and it has listings. *)
Lemma attempts_returned : forall fuel attempt lastError r data,
  attempts extractMLSData text maxAttempts fuel attempt lastError = Some r ->
  returned r = Some data ->
  extractMLSData text = inl data /\ hasListings data = true.
Proof.
  induction fuel as [|fuel IH]; intros attempt lastError r data H Hr;
    cbn [attempts] in H; [discriminate|].
  destruct (of_nat attempt <? maxAttempts)%js.
  - destruct (extractMLSData text) as [d|error] eqn:E.
    + destruct (hasListings d) eqn:Hd.
      * injection H as <-. cbn [returned] in Hr. injection Hr as <-. now split.
      * destruct (IH _ _ _ _ H Hr) as [E' Hh].
        injection E' as <-. congruence.
    + destruct (IH _ _ _ _ H Hr) as [E' _]. discriminate E'.
  - injection H as <-. discriminate Hr.
Qed.

(** Without a bound the loop never ends unless a pass returns. *)
Lemma attempts_unbounded : forall fuel attempt lastError,
  maxAttempts = PosInf ->
  returned (once extractMLSData text) = None ->
  attempts extractMLSData text maxAttempts fuel attempt lastError = None.
Proof.
  induction fuel as [|fuel IH]; intros attempt lastError Hmax Hnone;
    [reflexivity|].
  rewrite attempts_pass; [now apply IH | now rewrite Hmax | exact Hnone].
Qed.

End Loop.




(** X24: with [maxAttempts] Infinity, a text the sniff accepts and whose
    pass does not return a report keeps the loop of [retryProcessing]
    running for ever. *)
Theorem retryProcessing_unbounded_never_ends :
  forall (extractMLSData : extractor) (text : string) (fuel : nat),
    validatePDFContent text = true ->
    returned (once extractMLSData text) = None ->
    retryProcessing extractMLSData text PosInf fuel = None.
Proof.
  intros e text fuel Hsniff Hnone. unfold retryProcessing. rewrite Hsniff.
  cbn [negb]. now apply attempts_unbounded.
Qed.

Lemma retryProcessing_unbounded_witness :
  retryProcessing lineExtractor "Bedrooms: 3" PosInf 5 = None.
Proof.
  apply retryProcessing_unbounded_never_ends; vm_compute; reflexivity.
Defined.

(** X25: whenever [retryProcessing] returns a report for a text, [processPDF]
    on a PDF of that text succeeds with the same report and the text as
    raw text. *)
Theorem retried_report_is_the_processed_one :
  forall (extractMLSData : extractor) (text : string) (maxAttempts : number)
         (fuel : nat) (r : Retried) (data : MLSReport.t),
    retryProcessing extractMLSData text maxAttempts fuel = Some r ->
    returned r = Some data ->
    processPDF (reads text) extractMLSData tt
    = mkResult true (Present data) Absent (Present text).
Proof.
  intros e text maxAttempts fuel r data H Hr. unfold retryProcessing in H.
  destruct (validatePDFContent text) eqn:Hsniff; cbn [negb] in H;
    [|injection H as <-; discriminate Hr].
  destruct (attempts_returned _ _ _ _ _ _ H Hr) as [He Hh].
  destruct text as [|c s]; [discriminate Hsniff|].
  unfold processPDF, reads, tryBlock. rewrite He.
  unfold hasListings in Hh.
  destruct (MLSReport.activeListings data), (MLSReport.closedListings data);
    [discriminate Hh | reflexivity | reflexivity | reflexivity].
Qed.

Lemma retried_report_witness :
  processPDF (reads "MLS#12345") lineExtractor tt
  = mkResult true (Present (Extractor.extractMLSData "MLS#12345")) Absent
             (Present "MLS#12345").
Proof.
  apply (@retried_report_is_the_processed_one lineExtractor "MLS#12345" (Num 3) 4
           (mkRetried (Some (Extractor.extractMLSData "MLS#12345")) None)).
  - vm_compute. reflexivity.
  - reflexivity.
Defined.

End RetryFacts.

(* ================================================================== *)
(** * The pipeline on the line extractor *)
(* ================================================================== *)

Module PipelineFacts.
Import Text PdfProcessor PdfContent Properties ExtractorFacts LoopFacts.



End PipelineFacts.

(* ================================================================== *)
(** * The content sniff against the extractor *)
(* ================================================================== *)

Module SniffFacts.
Import Text Extractor PdfContent Properties TextFacts CaptureFacts ExtractorFacts
       LoopFacts.

Lemma test_next : forall (pattern_at : string -> bool) (a : ascii) (s : string),
  pattern_at (String a s) = false ->
  test pattern_at (String a s) = test pattern_at s.
Proof.
  intros pattern_at a s H. unfold test. cbn [search]. now rewrite H.
Qed.

Lemma skip_of_all : forall p s, all_chars p s = true -> skip p s = EmptyString.
Proof. intros p s H. unfold skip. now rewrite (span_of_all _ _ H). Qed.

Lemma digits_or_commas : forall s,
  all_chars isDigit s = true -> all_chars isDigitOrComma s = true.
Proof.
  induction s as [|c r IH]; intros H; [reflexivity|].
  cbn [all_chars] in *. apply andb_true_iff in H. destruct H as [Hc Hr].
  unfold isDigitOrComma at 1. now rewrite Hc, IH.
Qed.

(** No indicator matches at the head of a run of digits that ends the
    text. *)
Lemma digits_match_no_indicator : forall s,
  all_chars isDigit s = true ->
  Forall (fun pattern_at => pattern_at s = false) mlsIndicators.
Proof.
  intros s H. destruct s as [|c r]; [repeat constructor|].
  pose proof H as Hall. cbn [all_chars] in H. apply andb_true_iff in H.
  destruct H as [Hc Hr].
  assert (Hspan : span isDigit (String c r) = (String c r, EmptyString))
    by now apply span_of_all.
  assert (Hskip : skip isDigitOrComma r = EmptyString)
    by now apply skip_of_all, digits_or_commas.
  unfold mlsIndicators.
  repeat constructor.
  - destruct c as [[|] [|] [|] [|] [|] [|] [|] [|]];
      solve [discriminate Hc | reflexivity].
  - destruct c as [[|] [|] [|] [|] [|] [|] [|] [|]];
      solve [discriminate Hc | reflexivity].
  - unfold sqftIndicator_at. rewrite Hc, Hskip.
    destruct c as [[|] [|] [|] [|] [|] [|] [|] [|]];
      solve [discriminate Hc | reflexivity].
  - unfold bedIndicator_at. rewrite Hspan.
    destruct c as [[|] [|] [|] [|] [|] [|] [|] [|]];
      solve [discriminate Hc | reflexivity].
  - unfold bathIndicator_at. rewrite Hspan.
    destruct c as [[|] [|] [|] [|] [|] [|] [|] [|]];
      solve [discriminate Hc | reflexivity].
Qed.

Lemma digits_pass_no_test : forall s,
  all_chars isDigit s = true ->
  Forall (fun pattern_at => test pattern_at s = false) mlsIndicators.
Proof.
  induction s as [|c r IH]; intros H; [repeat constructor|].
  pose proof (digits_match_no_indicator _ H) as Hhead.
  cbn [all_chars] in H. apply andb_true_iff in H. destruct H as [_ Hr].
  specialize (IH Hr).
  rewrite Forall_forall in *. intros pattern_at Hin.
  rewrite test_next by now apply Hhead. now apply IH.
Qed.

(** ** A header without the hash sign *)

Lemma header_sniff : forall c r,
  isDigit c = true ->
  Forall (fun pattern_at =>
            test pattern_at (plainHeader (String c r)) = test pattern_at (String c r))
         mlsIndicators.
Proof.
  intros c r Hc. unfold mlsIndicators.
  destruct c as [[|] [|] [|] [|] [|] [|] [|] [|]]; try discriminate Hc;
    repeat constructor; unfold plainHeader;
    cbn [append]; rewrite !test_next by reflexivity; reflexivity.
Qed.

Lemma digit_is_no_newline : forall c, isDigit c = true -> isNewline c = false.
Proof.
  intros c H.
  destruct c as [[|] [|] [|] [|] [|] [|] [|] [|]];
    solve [discriminate H | reflexivity].
Qed.

Lemma split_lines_digits : forall s,
  all_chars isDigit s = true -> split_lines s = [s].
Proof.
  induction s as [|c r IH]; intros H; [reflexivity|].
  cbn [all_chars] in H. apply andb_true_iff in H. destruct H as [Hc Hr].
  cbn [split_lines]. now rewrite (digit_is_no_newline _ Hc), (IH Hr).
Qed.

Lemma trimEnd_digits : forall s,
  all_chars isDigit s = true -> trimEnd s = s.
Proof.
  induction s as [|c r IH]; intros H; [reflexivity|].
  cbn [all_chars] in H. apply andb_true_iff in H. destruct H as [Hc Hr].
  cbn [trimEnd]. rewrite (IH Hr).
  destruct r; [|reflexivity].
  destruct (digit_is_no_sign c Hc) as [-> _]. reflexivity.
Qed.

Lemma append_empty : forall s : string, (s ++ EmptyString)%string = s.
Proof. induction s as [|c r IH]; [reflexivity | cbn [append]; now rewrite IH]. Qed.

Lemma search_head : forall (A : Type) (f : string -> option A) s a,
  f s = Some a -> search f s = Some a.
Proof. intros A f s a H. destruct s; cbn [search]; now rewrite H. Qed.

Lemma skip_space : forall s, skip isSpace (String " " s) = skip isSpace s.
Proof.
  intros s. unfold skip. cbn [span]. change (isSpace " ") with true. cbv iota.
  now destruct (span isSpace s).
Qed.

Lemma skip_none : forall p c s, p c = false -> skip p (String c s) = String c s.
Proof. intros p c s H. unfold skip. cbn [span]. now rewrite H. Qed.

Lemma header_line : forall c r,
  all_chars isDigit (String c r) = true ->
  split_lines (plainHeader (String c r)) = [plainHeader (String c r)]
  /\ trim (plainHeader (String c r)) = (plainHeader (String c r))
  /\ mlsMatch (plainHeader (String c r)) = Some (String c r).
Proof.
  intros c r H.
  pose proof (split_lines_digits _ H) as Hsplit.
  pose proof (trimEnd_digits _ H) as Htrim.
  pose proof (span_of_all _ _ H) as Hspan.
  pose proof H as Hall. cbn [all_chars] in H. apply andb_true_iff in H.
  destruct H as [Hc _].
  destruct (digit_is_no_sign c Hc) as (Hspace & _ & _).
  unfold plainHeader. repeat split.
  - cbn [append split_lines] in *.
    change (isNewline "M") with false. change (isNewline "L") with false.
    change (isNewline "S") with false. change (isNewline " ") with false.
    cbv iota. cbn [split_lines] in Hsplit. now rewrite Hsplit.
  - unfold trim, trimStart, skip. cbn [append span].
    change (isSpace "M") with false. cbv iota. cbn [snd trimEnd].
    cbn [trimEnd] in Htrim. rewrite Htrim. reflexivity.
  - unfold mlsMatch. apply search_head. unfold mls_at. cbn [append].
    change (literal "MLS" (String "M" (String "L" (String "S"
              (String " " (String c r))))))
      with (Some (String " " (String c r))).
    cbv iota.
    change (optional isHash (String " " (String c r)))
      with (String " " (String c r)).
    rewrite skip_space, (@skip_none isSpace c r Hspace), Hspan.
    cbn [is_empty span append]. now rewrite append_empty.
Qed.

(** X27: for a text that is "MLS", a space and a run of digits,
    [extractMLSData] returns one active listing with that number, while
    [validatePDFContent] returns false: the sniff wants "#" or "Number"
    after "MLS". *)
Theorem plain_header_is_extracted_but_not_sniffed : forall ds : string,
  ds <> EmptyString -> all_chars isDigit ds = true ->
  MLSReport.activeListings (extractMLSData (plainHeader ds)) = [fresh ds]
  /\ validatePDFContent (plainHeader ds) = false.
Proof.
  intros ds Hne Hd. destruct ds as [|c r]; [contradiction|].
  destruct (header_line _ _ Hd) as (Hsplit & Htrim & Hmatch).
  split.
  - unfold extractMLSData. rewrite report_active.
    unfold parse. rewrite Hsplit. unfold parse_lines, run. cbn [fold_left].
    rewrite (@step_mls_line initial (plainHeader (String c r)) (String c r))
      by (now rewrite Htrim).
    rewrite (remove_none _ isDigit _ digit_is_no_separator Hd).
    reflexivity.
  - unfold validatePDFContent.
    pose proof Hd as Hall. cbn [all_chars] in Hd. apply andb_true_iff in Hd.
    destruct Hd as [Hc _].
    pose proof (@header_sniff c r Hc) as Hhead.
    pose proof (digits_pass_no_test _ Hall) as Htail.
    rewrite Forall_forall in Hhead, Htail.
    destruct (existsb _ mlsIndicators) eqn:E; [|reflexivity].
    apply existsb_exists in E. destruct E as (pattern_at & Hin & Ht).
    rewrite (Hhead _ Hin), (Htail _ Hin) in Ht. discriminate Ht.
Qed.

Lemma plain_header_witness :
  MLSReport.activeListings (extractMLSData (plainHeader "12345")) = [fresh "12345"]
  /\ validatePDFContent (plainHeader "12345") = false.
Proof.
  apply plain_header_is_extracted_but_not_sniffed; [discriminate | reflexivity].
Defined.

End SniffFacts.
